(** * Lights-on prototype: the puzzle engine and its properties

    The repository holds three revisions of one React component:
    - [src/App.js]: the 4x4 board, whose [getAffectedCoordinates] branches on
      corner / edge / middle;
    - [part_001]: the 5x5 board, uniform offsets filtered by [isOutOfBounds],
      with a solvability oracle whose check vector counts unlit cells;
    - [part_000]: the 5x5 board with the puzzle editor ([FLIP_SINGLE]) and a
      solvability oracle whose check vector counts lit cells.

    The engine is embedded function by function.  Numbers are [Z]; a number
    that may be [NaN] is an [option Z]; a puzzle state is the finite map of the
    own properties of the JavaScript object (the order of its keys is not
    kept); a thrown [TypeError] is [None]. *)

From Stdlib Require Import ZArith Ascii String List Bool Lia.
From stdpp Require Import base option list strings pretty gmap.

Local Open Scope Z_scope.

(** ** JavaScript primitives used by the engine *)

Module JS.

(** [ToInt32] on an integer-valued number: what [~~x] leaves of [x] once the
    fraction is gone. *)
Definition toInt32 (z : Z) : Z := (z + 2 ^ 31) mod 2 ^ 32 - 2 ^ 31.

(** How a builtin member of [Object.prototype] behaves when it is called as a
    plain function [f(a, b)] (so [this] is [undefined], module code being
    strict) with an object as first argument. *)
Inductive builtin :=
| ReturnsFirstArgument          (* Object(a) is a itself *)
| ReturnsString (s : string)    (* Object.prototype.toString *)
| ThrowsTypeError               (* ToObject(undefined) *)
| NotCallable.                  (* the __proto__ accessor yields an object *)

Definition Object_prototype : list (string * builtin) :=
  [ ("constructor", ReturnsFirstArgument);
    ("toString", ReturnsString "[object Undefined]");
    ("toLocaleString", ThrowsTypeError);
    ("valueOf", ThrowsTypeError);
    ("hasOwnProperty", ThrowsTypeError);
    ("isPrototypeOf", ThrowsTypeError);
    ("propertyIsEnumerable", ThrowsTypeError);
    ("__defineGetter__", ThrowsTypeError);
    ("__defineSetter__", ThrowsTypeError);
    ("__lookupGetter__", ThrowsTypeError);
    ("__lookupSetter__", ThrowsTypeError);
    ("__proto__", NotCallable) ]%string.

Fixpoint assoc {A} (k : string) (l : list (string * A)) : option A :=
  match l with
  | [] => None
  | (k', a) :: l' => if String.eqb k k' then Some a else assoc k l'
  end.

(** [o[k]] on a plain object first looks at the own properties, then at
    [Object.prototype]. *)
Definition inherited (k : string) : option builtin := assoc k Object_prototype.

(** Truthiness of [o[k]] for an object whose own properties hold booleans:
    a missing property is [undefined] (falsy) unless [Object.prototype] has
    the key, and every inherited member is a function or an object. *)
Definition truthy_at (o : gmap string bool) (k : string) : bool :=
  match o !! k with
  | Some b => b
  | None => bool_decide (is_Some (inherited k))
  end.

(** [n.toString(2)] for an integer [n]. *)
Fixpoint binary_digits (p : positive) (acc : string) : string :=
  match p with
  | xH => String "1" acc
  | xO p' => binary_digits p' (String "0" acc)
  | xI p' => binary_digits p' (String "1" acc)
  end.

Definition toString2 (z : Z) : string :=
  match z with
  | Z0 => "0"
  | Zpos p => binary_digits p ""
  | Zneg p => String "-" (binary_digits p "")
  end.

(** [s.split('')]: the characters of [s]. *)
Fixpoint split_chars (s : string) : list ascii :=
  match s with
  | EmptyString => []
  | String c s' => c :: split_chars s'
  end.

(** [Number(c)] for a one-character string: a decimal digit is its value,
    white space is 0, anything else is [NaN]. *)
Definition Number (c : ascii) : option Z :=
  let n := Z.of_nat (nat_of_ascii c) in
  if (48 <=? n) && (n <=? 57) then Some (n - 48)
  else if (n =? 32) || ((9 <=? n) && (n <=? 13)) then Some 0
  else None.

(** [`${n}`] for an integer [n] (below [1e21], where JavaScript still prints
    every digit). *)
Definition numberToString (n : Z) : string := pretty n.

End JS.

(** A puzzle state: the own properties of the state object. *)
Abbreviation State := (gmap string bool).

(** ** The 5x5 engine ([part_000], [part_001]), over the grid constants *)

Module Uniform.
Section Grid.

Variables rowCount colCount : Z.

Definition numCells : Z := rowCount * colCount.

(** [index % 0] is [NaN] and [index / 0] is infinite; [~~] maps both to 0. *)
Definition getColumnRowFromIndex (index : Z) : Z * Z :=
  if colCount =? 0 then (0, 0)
  else (JS.toInt32 (Z.rem index colCount), JS.toInt32 (Z.quot index colCount)).

Definition getPuzzleCellIdFromCooordinate (column row : Z) : string :=
  JS.numberToString column +:+ "_" +:+ JS.numberToString row.

Definition getAffectedCoordinates (column row : Z) : list (Z * Z) :=
  [(column, row); (0, 0); (0, -1); (0, 1); (-1, 0); (1, 0)].

(** Despite its name the predicate holds of the offsets that stay on the
    board. *)
Definition isOutOfBounds (column row : Z) (d : Z * Z) : bool :=
  let '(dx, dy) := d in
  negb ((column + dx <? 0) || (column + dx >=? colCount)
        || (row + dy <? 0) || (row + dy >=? rowCount)).

(** The callback of [reduce]: [{ ...s, [id]: !Boolean(s[id]) }]. *)
Definition toggleAt (column row : Z) (s : State) (d : Z * Z) : State :=
  let '(dx, dy) := d in
  let id := getPuzzleCellIdFromCooordinate (column + dx) (row + dy) in
  let lastValue := JS.truthy_at s id in
  <[id := negb lastValue]> s.

(** [affected.shift()] of an empty array is [undefined], and destructuring
    it throws. *)
Definition applyAffectedCoordinatesToState
    (affected : list (Z * Z)) (state : State) : option State :=
  match affected with
  | [] => None
  | (column, row) :: rest =>
      Some (foldl (toggleAt column row) state
              (List.filter (isOutOfBounds column row) rest))
  end.

Definition flipLogic (state : State) (column row : Z) : option State :=
  applyAffectedCoordinatesToState (getAffectedCoordinates column row) state.

(** *** Solvability oracle: the part both 5x5 revisions share *)

(** [dotProduct = (dotProduct + check[i] * magicValueTable[i]) % 2]; an
    index past the end reads [undefined] and the product is [NaN]. *)
Definition dotStep (check : list Z) (magicValueTable : list (option Z))
    (dotProduct : option Z) (i : Z) : option Z :=
  d ← dotProduct;
  c ← check !! Z.to_nat i;
  m ← mjoin (magicValueTable !! Z.to_nat i);
  Some (Z.rem (d + c * m) 2).

Definition compareCheckTableAgainstMagicValueTable
    (check : list Z) (magicValueTable : list (option Z)) : bool :=
  match foldl (dotStep check magicValueTable) (Some 0) (seqZ 0 numCells) with
  | Some 0 => true
  | _ => false
  end.

(** *** Cell descriptors and the win check *)

(** The pixel geometry ([x], [y], [width], [height]) is floating point and
    plays no part in the logic; the descriptor keeps the other fields. *)
Record Cell := mkCell
  { cell_id : string; cell_column : Z; cell_row : Z;
    cell_color : string; cell_lit : bool }.

Definition calculatePuzzleCellsFromState (state : State) : list Cell :=
  map (fun i =>
         let '(column, row) := getColumnRowFromIndex i in
         let id := getPuzzleCellIdFromCooordinate column row in
         {| cell_id := id; cell_column := column; cell_row := row;
            cell_color := if JS.truthy_at state id then "seagreen" else "black";
            cell_lit := negb (negb (JS.truthy_at state id)) |})
      (seqZ 0 numCells).

(** The effect of [PuzzleView]: [numLights === numCells]. *)
Definition numLights (cells : list Cell) : Z :=
  Z.of_nat (length (List.filter cell_lit cells)).

Definition winCheck (state : State) : bool :=
  numLights (calculatePuzzleCellsFromState state) =? numCells.

End Grid.
End Uniform.

(** The magic constants and their decoding are the same in both revisions. *)
Module Magic.

Definition decodeMagicValueToTable (magicValue : Z) : list (option Z) :=
  map JS.Number (JS.split_chars (JS.toString2 magicValue)).

Definition magicValues : list (list (option Z)) :=
  map decodeMagicValueToTable [0x15a82b5; 0x1b06c1b].

End Magic.

(** ** [part_000]: 5x5, check vector 1 where the cell is lit *)

Module Part000.

Definition rowCount : Z := 5.
Definition colCount : Z := 5.
Definition numCells : Z := Uniform.numCells rowCount colCount.

Definition getColumnRowFromIndex := Uniform.getColumnRowFromIndex colCount.
Definition getPuzzleCellIdFromCooordinate := Uniform.getPuzzleCellIdFromCooordinate.
Definition magicValues := Magic.magicValues.

Definition puzzleStateToCheckTable (state : State) : list Z :=
  map (fun i =>
         let '(column, row) := getColumnRowFromIndex i in
         let id := getPuzzleCellIdFromCooordinate column row in
         if JS.truthy_at state id then 1 else 0)
      (seqZ 0 numCells).

Definition compareCheckTableAgainstMagicValueTable :=
  Uniform.compareCheckTableAgainstMagicValueTable rowCount colCount.

Definition isPuzzleSolvable (state : State) : bool :=
  let check := puzzleStateToCheckTable state in
  compareCheckTableAgainstMagicValueTable check (magicValues !!! 0%nat)
  && compareCheckTableAgainstMagicValueTable check (magicValues !!! 1%nat).

Definition applyAffectedCoordinatesToState :=
  Uniform.applyAffectedCoordinatesToState rowCount colCount.

Definition flipLogic := Uniform.flipLogic rowCount colCount.

End Part000.

(** ** [part_001]: 5x5, check vector 1 where the cell is unlit *)

Module Part001.

Definition rowCount : Z := 5.
Definition colCount : Z := 5.
Definition numCells : Z := Uniform.numCells rowCount colCount.

Definition getColumnRowFromIndex := Uniform.getColumnRowFromIndex colCount.
Definition getPuzzleCellIdFromCooordinate := Uniform.getPuzzleCellIdFromCooordinate.
Definition magicValues := Magic.magicValues.

Definition puzzleStateToCheckTable (state : State) : list Z :=
  map (fun i =>
         let '(column, row) := getColumnRowFromIndex i in
         let id := getPuzzleCellIdFromCooordinate column row in
         if JS.truthy_at state id then 0 else 1)
      (seqZ 0 numCells).

Definition compareCheckTableAgainstMagicValueTable :=
  Uniform.compareCheckTableAgainstMagicValueTable rowCount colCount.

Definition isPuzzleSolvable (state : State) : bool :=
  let check := puzzleStateToCheckTable state in
  compareCheckTableAgainstMagicValueTable check (magicValues !!! 0%nat)
  && compareCheckTableAgainstMagicValueTable check (magicValues !!! 1%nat).

Definition flipLogic := Uniform.flipLogic rowCount colCount.

Definition calculatePuzzleCellsFromState :=
  Uniform.calculatePuzzleCellsFromState rowCount colCount.

Definition winCheck := Uniform.winCheck rowCount colCount.

End Part001.

(** ** [src/App.js]: 4x4, offsets chosen by region *)

Module App4.

Definition rowCount : Z := 4.
Definition colCount : Z := 4.
Definition numCells : Z := rowCount * colCount.

(** Every [affected.push(...)] appends to the array built so far. *)
Definition getAffectedCoordinates (column row : Z) : list (Z * Z) :=
  let affected := [(column, row); (0, 0)] in
  if column =? 0 then
    let affected := affected ++ [(1, 0)] in
    if row =? 0 then affected ++ [(0, 1)]
    else if row =? rowCount - 1 then affected ++ [(0, -1)]
    else affected ++ [(0, -1); (0, 1)]
  else if column =? colCount - 1 then
    let affected := affected ++ [(-1, 0)] in
    if row =? 0 then affected ++ [(0, 1)]
    else if row =? rowCount - 1 then affected ++ [(0, -1)]
    else affected ++ [(0, -1); (0, 1)]
  else
    let affected := affected ++ [(-1, 0)] in
    if row =? 0 then affected ++ [(1, 0); (0, 1)]
    else if row =? rowCount - 1 then affected ++ [(1, 0); (0, -1)]
    else affected ++ [(1, 0); (0, 1); (0, -1)].

Definition toggleAt (column row : Z) (s : State) (d : Z * Z) : State :=
  let '(dx, dy) := d in
  let id := JS.numberToString (column + dx) +:+ "_" +:+ JS.numberToString (row + dy) in
  let lastValue := JS.truthy_at s id in
  <[id := negb lastValue]> s.

(** No filter here: the offsets are applied as they come. *)
Definition applyAffectedCoordinatesToState
    (affected : list (Z * Z)) (state : State) : option State :=
  match affected with
  | [] => None
  | (column, row) :: rest => Some (foldl (toggleAt column row) state rest)
  end.

Definition flipLogic (state : State) (column row : Z) : option State :=
  applyAffectedCoordinatesToState (getAffectedCoordinates column row) state.

End App4.

(** ** The reducer *)

Module Reducer.

Record Action := mkAction { type : string; column : Z; row : Z }.

(** What [puzzleReducer] can hand back: a state, or the string that
    [Object.prototype.toString] produces. *)
Inductive value :=
| VState (s : State)
| VString (s : string).

Definition handler : Type := State -> Action -> option State.

Inductive member :=
| Own (h : handler)
| Inherited (b : JS.builtin).

(** [handlers[key]] on an object literal: own methods first, then
    [Object.prototype]; [None] is [undefined]. *)
Definition getMember (handlers : list (string * handler)) (key : string)
    : option member :=
  match JS.assoc key handlers with
  | Some h => Some (Own h)
  | None => Inherited <$> JS.inherited key
  end.

(** [handler(state, action)]; [None] is a thrown [TypeError]. *)
Definition call (m : member) (state : State) (action : Action) : option value :=
  match m with
  | Own h => VState <$> h state action
  | Inherited JS.ReturnsFirstArgument => Some (VState state)
  | Inherited (JS.ReturnsString s) => Some (VString s)
  | Inherited JS.ThrowsTypeError => None
  | Inherited JS.NotCallable => None
  end.

(** Every member an object literal can yield is a function or an object,
    hence truthy: [if (handler)] fails on [undefined] only. *)
Definition reduceWith (handlers : list (string * handler))
    (state : State) (action : Action) : option value :=
  match getMember handlers (type action) with
  | Some m => call m state action
  | None => Some (VState state)
  end.

Module Part000.
Definition puzzleReducerActionHandlers : list (string * handler) :=
    [ ("RESET_PUZZLE", fun _ _ => Some ∅);
      ("FLIP", fun state action =>
         Part000.flipLogic state (column action) (row action));
      ("FLIP_SINGLE", fun state action =>
         Part000.applyAffectedCoordinatesToState
           [(column action, row action); (0, 0)] state) ]%string.
Definition puzzleReducer := reduceWith puzzleReducerActionHandlers.
End Part000.

Module Part001.
Definition puzzleReducerActionHandlers : list (string * handler) :=
    [ ("RESET_PUZZLE", fun _ _ => Some ∅);
      ("FLIP", fun state action =>
         Part001.flipLogic state (column action) (row action)) ]%string.
Definition puzzleReducer := reduceWith puzzleReducerActionHandlers.
End Part001.

Module App4.
Definition puzzleReducerActionHandlers : list (string * handler) :=
    [ ("RESET_PUZZLE", fun _ _ => Some ∅);
      ("FLIP", fun state action =>
         App4.flipLogic state (column action) (row action)) ]%string.
Definition puzzleReducer := reduceWith puzzleReducerActionHandlers.
End App4.

End Reducer.

(** ** The state objects in the store

  [{ ...state }] and [{ ...s, [id]: v }] build new objects.  To say that the
  caller's object is left alone, objects live in a store and the engine
  passes references. *)

Module Store.

Abbreviation loc := positive.
Abbreviation heap := (gmap positive (gmap string bool)).

Definition alloc (o : State) (h : heap) : loc * heap :=
  let l := fresh (dom h) in (l, <[l := o]> h).

(** [{ ...state }] *)
Definition spread (state : loc) (h : heap) : option (loc * heap) :=
  o ← h !! state; Some (alloc o h).

(** One call of the [reduce] callback: read [s], build the next object. *)
Definition callback (step : State -> Z * Z -> State)
    (acc : option (loc * heap)) (d : Z * Z) : option (loc * heap) :=
  '(s, h) ← acc; o ← h !! s; Some (alloc (step o d) h).

Definition reduce (step : State -> Z * Z -> State) (offsets : list (Z * Z))
    (init : option (loc * heap)) : option (loc * heap) :=
  foldl (callback step) init offsets.

(** [part_000] / [part_001] *)
Definition applyAffectedCoordinatesToState5
    (affected : list (Z * Z)) (state : loc) (h : heap) : option (loc * heap) :=
  match affected with
  | [] => None
  | (column, row) :: rest =>
      reduce (Uniform.toggleAt column row)
        (List.filter (Uniform.isOutOfBounds 5 5 column row) rest)
        (spread state h)
  end.

Definition flipLogic5 (state : loc) (column row : Z) (h : heap) :=
  applyAffectedCoordinatesToState5 (Uniform.getAffectedCoordinates column row) state h.

(** [src/App.js] *)
Definition applyAffectedCoordinatesToState4
    (affected : list (Z * Z)) (state : loc) (h : heap) : option (loc * heap) :=
  match affected with
  | [] => None
  | (column, row) :: rest =>
      reduce (App4.toggleAt column row) rest (spread state h)
  end.

Definition flipLogic4 (state : loc) (column row : Z) (h : heap) :=
  applyAffectedCoordinatesToState4 (App4.getAffectedCoordinates column row) state h.

End Store.

(** ** [src/App.js]: the descriptors with their geometry, and the win check

    [WIDTH - spacing = 508 = 4 * 127]: every number of the 4x4 geometry is an
    integer, which a double holds exactly, so the geometry is modelled in
    [Z] as it is computed. *)

Module App4View.

Definition WIDTH : Z := 512.
Definition HEIGHT : Z := 512.
Definition spacing : Z := 4.
Definition cellWidth : Z := (WIDTH - spacing) / App4.colCount.
Definition cellHeight : Z := (HEIGHT - spacing) / App4.rowCount.

Record Cell := mkCell
  { id : string; column : Z; row : Z;
    x : Z; y : Z; width : Z; height : Z;
    color : string; lit : bool }.

Definition calculatePuzzleCellsFromState (state : State) : list Cell :=
  map (fun i =>
         let colIndex := JS.toInt32 (Z.rem i App4.colCount) in
         let rowIndex := JS.toInt32 (Z.quot i App4.colCount) in
         let id := JS.numberToString colIndex +:+ "_" +:+ JS.numberToString rowIndex in
         {| id := id; column := colIndex; row := rowIndex;
            x := spacing + colIndex * cellWidth;
            y := spacing + rowIndex * cellHeight;
            width := cellWidth - spacing;
            height := cellHeight - spacing;
            color := if JS.truthy_at state id then "seagreen" else "black";
            lit := negb (negb (JS.truthy_at state id)) |})
      (seqZ 0 App4.numCells).

(** The effect of [PuzzleView]. *)
Definition winCheck (state : State) : bool :=
  Z.of_nat (length (List.filter lit (calculatePuzzleCellsFromState state)))
  =? App4.numCells.

End App4View.

(** ** [part_001]: [PuzzleView] as a transition system

    The component holds the reducer's state and the flag [cleared].  An event
    is handled to its end (the handler, the render, then the effect that
    follows the render) before the next one arrives. *)

Module View001.

Record ViewState := mkView { puzzle : State; cleared : bool }.

Inductive Event :=
| CellClick (index : nat)   (* a click on the [index]-th rectangle *)
| PlayAgain.                (* a click on the text under the overlay *)

(** [useEffect]: [if (numLights === numCells) setCleared(true)]. *)
Definition effect (v : ViewState) : ViewState :=
  if Part001.winCheck (puzzle v) then {| puzzle := puzzle v; cleared := true |}
  else v.

(** [dispatch(action)] *)
Definition dispatch (v : ViewState) (action : Reducer.Action) : option ViewState :=
  match Reducer.Part001.puzzleReducer (puzzle v) action with
  | Some (Reducer.VState next) => Some {| puzzle := next; cleared := cleared v |}
  | _ => None
  end.

(** The handlers.  A rectangle is drawn for each descriptor and its click
    calls [flip(cell.column, cell.row)], where [flip] is the empty function
    once [cleared]; the text is drawn only when [cleared], and its click
    resets the puzzle and the flag.  An event on what is not drawn does not
    happen: the state stays. *)
Definition handle (v : ViewState) (e : Event) : option ViewState :=
  match e with
  | CellClick index =>
      match Part001.calculatePuzzleCellsFromState (puzzle v) !! index with
      | None => Some v
      | Some cell =>
          if cleared v then Some v
          else dispatch v {| Reducer.type := "FLIP";
                             Reducer.column := Uniform.cell_column cell;
                             Reducer.row := Uniform.cell_row cell |}
      end
  | PlayAgain =>
      if cleared v then
        v' ← dispatch v {| Reducer.type := "RESET_PUZZLE";
                           Reducer.column := 0; Reducer.row := 0 |};
        Some {| puzzle := puzzle v'; cleared := false |}
      else Some v
  end.

Definition step (v : ViewState) (e : Event) : option ViewState :=
  effect <$> handle v e.

(** The first render, with the reducer's initial state [{}]. *)
Definition initial : ViewState := effect {| puzzle := ∅; cleared := false |}.

Fixpoint run (v : ViewState) (events : list Event) : option ViewState :=
  match events with
  | [] => Some v
  | e :: rest => v' ← step v e; run v' rest
  end.

End View001.

(** * Vocabulary of the statements *)

(** ** Toggling *)

(** One step of either [reduce] callback, on the identifier it builds. *)
Definition toggle (id : string) (s : State) : State :=
  <[id := negb (JS.truthy_at s id)]> s.

Definition toggle_all (ids : list string) (s : State) : State :=
  foldl (fun s id => toggle id s) s ids.

(** Whether [k] occurs an odd number of times in [ids]. *)
Fixpoint odd_occ (k : string) (ids : list string) : bool :=
  match ids with
  | [] => false
  | id :: ids' => xorb (bool_decide (k = id)) (odd_occ k ids')
  end.

(** The identifiers a list of offsets stands for. *)
Definition ids_of (column row : Z) (offsets : list (Z * Z)) : list string :=
  map (fun d => Uniform.getPuzzleCellIdFromCooordinate (column + d.1) (row + d.2))
      offsets.

(** The cells the uniform policy toggles, and those of the 4x4 revision. *)
Definition affected_ids (rowCount colCount column row : Z) : list string :=
  ids_of column row
    (List.filter (Uniform.isOutOfBounds rowCount colCount column row)
       [(0, 0); (0, -1); (0, 1); (-1, 0); (1, 0)]).

Definition affected_ids4 (column row : Z) : list string :=
  ids_of column row (tail (App4.getAffectedCoordinates column row)).

(** ** The neighbour set, in the words of the specification *)

(** The clicked cell and its orthogonal neighbours that lie on the board. *)
Definition neighbourhood (rowCount colCount column row : Z) : list (Z * Z) :=
  List.filter
    (fun '(x, y) => (0 <=? x) && (x <? colCount) && (0 <=? y) && (y <? rowCount))
    [(column, row); (column, row - 1); (column, row + 1);
     (column - 1, row); (column + 1, row)].

Definition neighbour_ids (rowCount colCount column row : Z) : list string :=
  map (fun '(x, y) => Uniform.getPuzzleCellIdFromCooordinate x y)
      (neighbourhood rowCount colCount column row).

(** ** Equality of puzzle states *)

(** Two states are the same puzzle state when every identifier reads the same
    in both: a key that is absent and a key that holds [false] both read
    unlit. *)
Definition same_cells (s1 s2 : State) : Prop :=
  ∀ id, JS.truthy_at s1 id = JS.truthy_at s2 id.

(** [flip] applied twice at one cell returns, and gives back the puzzle state
    it started from; when the state object already had a key for each of
    [cells], it gives back that very object, key for key. *)
Definition flips_back (flip : State -> Z -> Z -> option State)
    (cells : list string) (state : State) (column row : Z) : Prop :=
  ∃ once twice,
    flip state column row = Some once
    ∧ flip once column row = Some twice
    ∧ same_cells twice state
    ∧ ((∀ id, id ∈ cells → is_Some (state !! id)) → twice = state).

(** ** Stores *)

(** [h'] holds every object of [h], unchanged. *)
Definition preserves (h h' : Store.heap) : Prop :=
  ∀ l o, h !! l = Some o → h' !! l = Some o.

(** What a flip through references must leave alone: the call returns a
    reference [next] into a store [h'] in which the caller's object still
    holds [s], and the object at [next] has the properties of [s] at every
    identifier outside [cells]. *)
Definition touches_only (cells : list string)
    (result : option (Store.loc * Store.heap))
    (h : Store.heap) (state : Store.loc) (s : State) : Prop :=
  ∃ next h' s',
    result = Some (next, h')
    ∧ h' !! state = Some s
    ∧ h' !! next = Some s'
    ∧ ∀ id, id ∉ cells → s' !! id = s !! id.

(** ** Parities *)

(** Exclusive-or of [g 0 .. g (n-1)]. *)
Fixpoint xorsum (g : nat -> bool) (n : nat) : bool :=
  match n with
  | O => false
  | S n' => xorb (xorsum g n') (g n')
  end.

(** Bit [i] of table [k], [false] outside the table. *)
Definition magic_bit (k i : nat) : bool :=
  match Magic.magicValues !! k ≫= (fun table => mjoin (table !! i)) with
  | Some 1 => true
  | _ => false
  end.

(** The cell that check-table index [i] reads. *)
Definition cell_of_index (i : nat) : string :=
  let '(column, row) := Part000.getColumnRowFromIndex (Z.of_nat i) in
  Part000.getPuzzleCellIdFromCooordinate column row.

(** The parity of the overlap between the lit cells and table [k]. *)
Definition overlap (k : nat) (s : State) : bool :=
  xorsum (fun i => JS.truthy_at s (cell_of_index i) && magic_bit k i) 25.

(** Number of entries of a decoded table that are 1. *)
Definition ones (table : list (option Z)) : nat :=
  length (List.filter (fun x => bool_decide (x = Some 1)) table).

(** The binary digits of a positive number, most significant first. *)
Fixpoint msb_first (p : positive) : list (option Z) :=
  match p with
  | xH => [Some 1]
  | xO p' => msb_first p' ++ [Some 0]
  | xI p' => msb_first p' ++ [Some 1]
  end.

(** ** The winning state *)

(** Every cell of the board holds [true]. *)
Definition all_lit (s : State) : Prop :=
  ∀ column row, 0 ≤ column < 5 → 0 ≤ row < 5 →
    s !! Part000.getPuzzleCellIdFromCooordinate column row = Some true.

Definition winning_state : State :=
  list_to_map (map (fun i => (cell_of_index i, true)) (seq 0 25)).

(** ** Identifiers and the board *)

(** Whether the separator of cell identifiers is absent from [s]. *)
Fixpoint no_underscore (s : string) : bool :=
  match s with
  | EmptyString => true
  | String c s' => negb (Ascii.eqb c "_") && no_underscore s'
  end.

(** An integer that a JavaScript number holds exactly, with its neighbours
    ([Number.isSafeInteger]). *)
Definition safe_integer (z : Z) : Prop := - 2 ^ 53 < z < 2 ^ 53.

(** A coordinate pair on the board. *)
Definition on_board (rowCount colCount : Z) (cell : Z * Z) : Prop :=
  0 ≤ cell.1 < colCount ∧ 0 ≤ cell.2 < rowCount.

Global Instance on_board_dec rowCount colCount cell :
  Decision (on_board rowCount colCount cell).
Proof. unfold on_board. apply _. Defined.

(** [id] names a cell of the board. *)
Definition board_id (rowCount colCount : Z) (id : string) : Prop :=
  ∃ column row, on_board rowCount colCount (column, row)
                ∧ id = Uniform.getPuzzleCellIdFromCooordinate column row.

(** Every key of the state object names a cell of the board. *)
Definition keys_on_board (rowCount colCount : Z) (s : State) : Prop :=
  ∀ id, is_Some (s !! id) → board_id rowCount colCount id.

(** [flip] at a cell returns, and every cell of [cells] holds in the result
    the negation of what it read before. *)
Definition negates (flip : State -> Z -> Z -> option State)
    (cells : list string) (state : State) (column row : Z) : Prop :=
  ∃ next, flip state column row = Some next
          ∧ ∀ id, id ∈ cells → next !! id = Some (negb (JS.truthy_at state id)).

(** ** Sequences of actions *)

(** Successive dispatches: [useReducer] feeds each action, in order, to the
    reducer with the state the previous one returned.  [None] when a call
    throws or hands back something that is not a state. *)
Fixpoint runActions (reducer : State -> Reducer.Action -> option Reducer.value)
    (state : State) (actions : list Reducer.Action) : option State :=
  match actions with
  | [] => Some state
  | action :: rest =>
      match reducer state action with
      | Some (Reducer.VState next) => runActions reducer next rest
      | _ => None
      end
  end.

(** What the play mode dispatches: a reset, or a flip of a cell of the 5x5
    board. *)
Definition play_action (action : Reducer.Action) : Prop :=
  Reducer.type action = "RESET_PUZZLE"%string
  ∨ (Reducer.type action = "FLIP"%string
     ∧ on_board 5 5 (Reducer.column action, Reducer.row action)).

(** What the editor dispatches for a click on [cell]. *)
Definition flipSingle (cell : Z * Z) : Reducer.Action :=
  {| Reducer.type := "FLIP_SINGLE"; Reducer.column := cell.1; Reducer.row := cell.2 |}.

(** The cells whose bit is 0 in both magic tables. *)
Definition unchecked_cells : list (Z * Z) :=
  [(1, 1); (3, 1); (2, 2); (1, 3); (3, 3)].

(** ** Vectors *)

(** The dot product of two vectors of integers. *)
Definition dot (check table : list Z) : Z :=
  foldr Z.add 0 (zip_with Z.mul check table).

(** ** Rectangles and the view *)

(** Two rectangles share no point of positive area. *)
Definition apart (a b : App4View.Cell) : Prop :=
  App4View.x a + App4View.width a ≤ App4View.x b
  ∨ App4View.x b + App4View.width b ≤ App4View.x a
  ∨ App4View.y a + App4View.height a ≤ App4View.y b
  ∨ App4View.y b + App4View.height b ≤ App4View.y a.

(** A rectangle inside the canvas. *)
Definition inside_canvas (a : App4View.Cell) : Prop :=
  0 ≤ App4View.x a ∧ App4View.x a + App4View.width a ≤ App4View.WIDTH
  ∧ 0 ≤ App4View.y a ∧ App4View.y a + App4View.height a ≤ App4View.HEIGHT.

(** What every reachable state of the view satisfies. *)
Definition view_ok (v : View001.ViewState) : Prop :=
  View001.cleared v = Part001.winCheck (View001.puzzle v)
  ∧ Part001.isPuzzleSolvable (View001.puzzle v) = true
  ∧ keys_on_board 5 5 (View001.puzzle v).

(** ** Reaching a state by clicks *)

(** What the play mode dispatches for a click on the cell of index [i]. *)
Definition flipAt (i : nat) : Reducer.Action :=
  let '(column, row) := Part000.getColumnRowFromIndex (Z.of_nat i) in
  {| Reducer.type := "FLIP"; Reducer.column := column; Reducer.row := row |}.

(** The cells a click on the cell of index [i] toggles. *)
Definition pattern_ids (i : nat) : list string :=
  let '(column, row) := Part000.getColumnRowFromIndex (Z.of_nat i) in
  affected_ids 5 5 column row.

(** For each cell index [j], clicks whose joint effect is to toggle cell [j],
    together with cell 2 when table 0 has a 1 at [j] and cell 1 when table 1
    has a 1 at [j]. *)
Definition unit_clicks : list (list nat) :=
  [ [3; 5; 6; 8; 9; 13; 15; 16; 17; 21];
    [];
    [];
    [2; 3; 4; 12; 13; 14; 16; 18; 20; 21; 22];
    [4; 6; 7; 8; 10; 12; 15; 16; 20];
    [0; 3; 5; 6; 8; 9; 13; 15; 16; 17; 21];
    [1; 3; 5; 6; 8; 9; 13; 15; 16; 17; 21];
    [3; 4; 12; 13; 14; 16; 18; 20; 21; 22];
    [2; 6; 7; 8; 10; 13; 14; 15; 18; 21; 22];
    [2; 3; 4; 6; 7; 8; 10; 13; 14; 15; 18; 21; 22];
    [0; 1; 3; 6; 8; 9; 13; 15; 16; 17; 21];
    [0; 1; 3; 4; 6; 12; 13; 14; 16; 18; 20; 21; 22];
    [1; 2; 4; 5; 9; 10; 12; 13; 17; 20; 21];
    [2; 3; 4; 8];
    [3; 6; 7; 8; 9; 10; 12; 15; 16; 20];
    [0; 3; 4; 5; 6; 10; 12; 13; 14; 16; 18; 20; 21; 22];
    [2; 3; 6; 9; 10; 11; 14; 16; 17; 18; 22];
    [0; 3; 5; 6; 8; 9; 10; 13; 17; 20; 21];
    [1; 2; 5; 8; 10; 13; 14; 16; 17; 18; 22];
    [3; 8; 9; 12; 13; 16; 18; 20; 21; 22];
    [1; 2; 3; 4; 5; 6; 8; 11; 12; 16; 20];
    [0; 1; 2; 8; 10; 11; 13; 14; 18; 20; 21; 22];
    [0; 2; 4; 5; 9; 11; 12; 13; 17];
    [0; 1; 3; 4; 6; 12; 13; 14; 18];
    [1; 2; 5; 6; 7; 8; 14; 15; 16; 17; 19; 21] ]%nat.

(** Clicks that light the lit cells of [state]: the clicks of every lit
    cell, one cell after the other. *)
Definition clicks_for (state : State) : list nat :=
  flat_map (fun j => if JS.truthy_at state (cell_of_index j)
                     then nth j unit_clicks [] else [])
           (seq 0 25).

(** Whether the clicks of [unit_clicks] for cell [j] toggle cell [i]. *)
Definition press (i j : nat) : bool :=
  odd_occ (cell_of_index i) (flat_map pattern_ids (nth j unit_clicks [])).

(** What the 4x4 view dispatches: a reset, or a flip of a cell of the board. *)
Definition play_action4 (action : Reducer.Action) : Prop :=
  Reducer.type action = "RESET_PUZZLE"%string
  ∨ (Reducer.type action = "FLIP"%string
     ∧ on_board 4 4 (Reducer.column action, Reducer.row action)).

(** Flips of the cells of the given indices on a board [colCount] wide. *)
Definition flipsAt (colCount : Z) (indices : list Z) : list Reducer.Action :=
  map (fun i => {| Reducer.type := "FLIP";
                   Reducer.column := i `mod` colCount;
                   Reducer.row := i `div` colCount |})
      indices.

(** ** Tactics *)

(** A coordinate bounded by 4 or 5 is one of finitely many numbers. *)
Ltac split_coordinate H :=
  lazymatch type of H with
  | 0 ≤ ?z < 4 =>
      let E := fresh in
      assert (z = 0 ∨ z = 1 ∨ z = 2 ∨ z = 3) as E by lia;
      clear H; destruct E as [->|[->|[->| ->]]]
  | 0 ≤ ?z < 5 =>
      let E := fresh in
      assert (z = 0 ∨ z = 1 ∨ z = 2 ∨ z = 3 ∨ z = 4) as E by lia;
      clear H; destruct E as [->|[->|[->|[->| ->]]]]
  end.

Ltac split_click Hc Hr := split_coordinate Hc; split_coordinate Hr.

(** Closed decidable goals, by evaluation. *)
Ltac by_evaluation :=
  match goal with |- ?P => apply (bool_decide_unpack P) end; vm_compute; exact I.

(** * Properties *)

(** ** Toggling cells *)

Lemma truthy_toggle id s k :
  JS.truthy_at (toggle id s) k = xorb (bool_decide (k = id)) (JS.truthy_at s k).
Proof.
  destruct (decide (k = id)) as [->|Hne].
  - rewrite bool_decide_eq_true_2 by done.
    unfold toggle. unfold JS.truthy_at at 1. rewrite lookup_insert_eq.
    by destruct (JS.truthy_at s id).
  - rewrite bool_decide_eq_false_2 by done.
    unfold toggle, JS.truthy_at. by rewrite lookup_insert_ne.
Qed.

Lemma lookup_toggle_ne id s k : k ≠ id → toggle id s !! k = s !! k.
Proof. intros Hne. unfold toggle. by rewrite lookup_insert_ne. Qed.

Lemma truthy_toggle_all ids s k :
  JS.truthy_at (toggle_all ids s) k = xorb (odd_occ k ids) (JS.truthy_at s k).
Proof.
  revert s. induction ids as [|id ids IH]; intros s; simpl.
  - reflexivity.
  - unfold toggle_all in *. simpl. rewrite IH, truthy_toggle.
    destruct (bool_decide (k = id)), (odd_occ k ids), (JS.truthy_at s k); reflexivity.
Qed.

Lemma lookup_toggle_all_notin ids s k :
  k ∉ ids → toggle_all ids s !! k = s !! k.
Proof.
  revert s. induction ids as [|id ids IH]; intros s Hk; [reflexivity|].
  apply not_elem_of_cons in Hk as [Hne Hk].
  unfold toggle_all in *. simpl. rewrite IH by done. by apply lookup_toggle_ne.
Qed.

Lemma lookup_toggle_all_NoDup ids s k :
  NoDup ids →
  toggle_all ids s !! k
  = if bool_decide (k ∈ ids) then Some (negb (JS.truthy_at s k)) else s !! k.
Proof.
  revert s. induction ids as [|id ids IH]; intros s Hnd.
  - reflexivity.
  - apply NoDup_cons in Hnd as [Hid Hnd].
    change (toggle_all (id :: ids) s) with (toggle_all ids (toggle id s)).
    destruct (decide (k = id)) as [->|Hne].
    + rewrite lookup_toggle_all_notin by done.
      rewrite bool_decide_eq_true_2 by left.
      unfold toggle. by rewrite lookup_insert_eq.
    + rewrite IH by done. rewrite truthy_toggle, lookup_toggle_ne by done.
      rewrite (bool_decide_eq_false_2 (k = id)) by done. simpl.
      destruct (decide (k ∈ ids)) as [Hin|Hnin].
      * rewrite !bool_decide_eq_true_2; [done| by right | done].
      * rewrite !bool_decide_eq_false_2; [done| |done].
        intros [?|?]%elem_of_cons; done.
Qed.

(** Distinct cells can be toggled in any order. *)
Lemma toggle_all_same_set ids ids' s :
  NoDup ids → NoDup ids' → (∀ k, k ∈ ids ↔ k ∈ ids') →
  toggle_all ids s = toggle_all ids' s.
Proof.
  intros Hnd Hnd' Hset. apply map_eq. intros k.
  rewrite !lookup_toggle_all_NoDup by done.
  by rewrite (bool_decide_ext _ _ (Hset k)).
Qed.

Lemma foldl_toggleAt5 column row offsets s :
  foldl (Uniform.toggleAt column row) s offsets
  = toggle_all (ids_of column row offsets) s.
Proof.
  revert s. induction offsets as [|[dx dy] offsets IH]; intros s; [reflexivity|].
  simpl. rewrite IH. reflexivity.
Qed.

Lemma foldl_toggleAt4 column row offsets s :
  foldl (App4.toggleAt column row) s offsets
  = toggle_all (ids_of column row offsets) s.
Proof.
  revert s. induction offsets as [|[dx dy] offsets IH]; intros s; [reflexivity|].
  simpl. rewrite IH. reflexivity.
Qed.

Lemma flipLogic_uniform rowCount colCount s column row :
  Uniform.flipLogic rowCount colCount s column row
  = Some (toggle_all (affected_ids rowCount colCount column row) s).
Proof.
  unfold Uniform.flipLogic, Uniform.applyAffectedCoordinatesToState,
    Uniform.getAffectedCoordinates.
  by rewrite foldl_toggleAt5.
Qed.

Lemma flipLogic_app4 s column row :
  App4.flipLogic s column row = Some (toggle_all (affected_ids4 column row) s).
Proof.
  unfold App4.flipLogic, App4.applyAffectedCoordinatesToState, affected_ids4.
  destruct (App4.getAffectedCoordinates column row) as [|[c r] rest] eqn:E.
  - unfold App4.getAffectedCoordinates in E.
    repeat case_match; discriminate.
  - assert ((c, r) = (column, row)) as [= -> ->].
    { unfold App4.getAffectedCoordinates in E.
      repeat case_match; simpl in E; congruence. }
    simpl. by rewrite foldl_toggleAt4.
Qed.

(** ** The cells a click reaches *)

Lemma affected_ids5_neighbours column row :
  0 ≤ column < 5 → 0 ≤ row < 5 →
  affected_ids 5 5 column row = neighbour_ids 5 5 column row.
Proof. intros Hc Hr. split_click Hc Hr; vm_compute; reflexivity. Qed.

Lemma affected_ids4_neighbours column row :
  0 ≤ column < 4 → 0 ≤ row < 4 →
  affected_ids4 column row ≡ₚ neighbour_ids 4 4 column row.
Proof. intros Hc Hr. split_click Hc Hr; by_evaluation. Qed.

Lemma neighbour_ids4_NoDup column row :
  0 ≤ column < 4 → 0 ≤ row < 4 → NoDup (neighbour_ids 4 4 column row).
Proof. intros Hc Hr. split_click Hc Hr; by_evaluation. Qed.

Lemma affected_ids_uniform4 column row :
  0 ≤ column < 4 → 0 ≤ row < 4 →
  affected_ids 4 4 column row = neighbour_ids 4 4 column row.
Proof. intros Hc Hr. split_click Hc Hr; vm_compute; reflexivity. Qed.

(** ** Flipping twice *)

Lemma toggle_all_twice ids s : same_cells (toggle_all ids (toggle_all ids s)) s.
Proof.
  intros k. rewrite !truthy_toggle_all.
  destruct (odd_occ k ids), (JS.truthy_at s k); reflexivity.
Qed.

(** On an object that has a key for every toggled cell, toggling twice
    restores the object itself. *)
Lemma toggle_all_twice_dense ids (s : State) :
  NoDup ids → (∀ id, id ∈ ids → is_Some (s !! id)) →
  toggle_all ids (toggle_all ids s) = s.
Proof.
  intros Hnd Hdense. apply map_eq. intros k.
  rewrite lookup_toggle_all_NoDup by done.
  destruct (decide (k ∈ ids)) as [Hin|Hnin].
  - rewrite bool_decide_eq_true_2 by done.
    unfold JS.truthy_at at 1.
    rewrite lookup_toggle_all_NoDup, bool_decide_eq_true_2 by done.
    destruct (Hdense k Hin) as [b Hb].
    unfold JS.truthy_at. rewrite Hb. by destruct b.
  - rewrite bool_decide_eq_false_2 by done. by apply lookup_toggle_all_notin.
Qed.

Lemma neighbour_ids5_NoDup column row :
  0 ≤ column < 5 → 0 ≤ row < 5 → NoDup (neighbour_ids 5 5 column row).
Proof. intros Hc Hr. split_click Hc Hr; by_evaluation. Qed.

(** C2. On the 4x4 board of [src/App.js] and on the 5x5 board of [part_001],
    for every puzzle state and every in-bounds click, [flipLogic] applied
    twice at the same coordinates returns, and the state it returns equals
    the original one: every cell reads lit or unlit as it did before, and
    when the original object had a key for each cell of the click's
    neighbour set the two objects are equal key for key. *)
Theorem flipLogic_twice (state : State) (column row : Z) :
  (0 ≤ column < App4.colCount → 0 ≤ row < App4.rowCount →
   flips_back App4.flipLogic (neighbour_ids 4 4 column row) state column row)
  ∧ (0 ≤ column < Part001.colCount → 0 ≤ row < Part001.rowCount →
     flips_back Part001.flipLogic (neighbour_ids 5 5 column row) state column row).
Proof.
  split; intros Hc Hr; unfold flips_back, Part001.flipLogic.
  - exists (toggle_all (affected_ids4 column row) state).
    eexists. rewrite !flipLogic_app4.
    repeat split; [apply toggle_all_twice|].
    intros Hdense.
    pose proof (affected_ids4_neighbours _ _ Hc Hr) as Hperm.
    apply toggle_all_twice_dense.
    + rewrite Hperm. by apply neighbour_ids4_NoDup.
    + intros id Hid. apply Hdense. by rewrite <- Hperm.
  - exists (toggle_all (affected_ids Part001.rowCount Part001.colCount column row) state).
    eexists. rewrite !flipLogic_uniform.
    repeat split; [apply toggle_all_twice|].
    intros Hdense. unfold Part001.rowCount, Part001.colCount in *.
    rewrite affected_ids5_neighbours by done.
    apply toggle_all_twice_dense; [by apply neighbour_ids5_NoDup | done].
Qed.

Lemma flipLogic_twice_witness :
  flips_back App4.flipLogic (neighbour_ids 4 4 0 3) {[ "0_0"%string := true ]} 0 3
  ∧ flips_back Part001.flipLogic (neighbour_ids 5 5 4 2)
      {[ "0_0"%string := true ]} 4 2.
Proof.
  split.
  - apply (flipLogic_twice {[ "0_0"%string := true ]} 0 3);
      unfold App4.colCount, App4.rowCount; lia.
  - apply (flipLogic_twice {[ "0_0"%string := true ]} 4 2);
      unfold Part001.colCount, Part001.rowCount; lia.
Defined.

(** The object that comes back is not the object that went in: a cell that
    had no key now has one, holding [false]. *)
Remark flipLogic_twice_leaves_keys :
  (Part001.flipLogic ∅ 0 0 ≫= fun once => Part001.flipLogic once 0 0)
  = Some (<[ "0_0"%string := false ]>
            (<[ "0_1"%string := false ]> {[ "1_0"%string := false ]})).
Proof. by_evaluation. Qed.

(** ** The two neighbour policies on the 4x4 board *)

(** C3. For every in-bounds click on the 4x4 board, the offsets that the
    region-by-region [getAffectedCoordinates] of [src/App.js] hands to the
    reducer are, up to their order, the offsets that survive the bounds
    filter of the uniform policy at [rowCount = colCount = 4]; and for every
    state both policies return the same next state. *)
Theorem edge_aware_policy_is_uniform_policy (column row : Z) :
  0 ≤ column < 4 → 0 ≤ row < 4 →
  tail (App4.getAffectedCoordinates column row)
    ≡ₚ List.filter (Uniform.isOutOfBounds 4 4 column row)
         (tail (Uniform.getAffectedCoordinates column row))
  ∧ ∀ state : State,
      App4.flipLogic state column row = Uniform.flipLogic 4 4 state column row.
Proof.
  intros Hc Hr. split.
  - split_click Hc Hr; by_evaluation.
  - intros state. rewrite flipLogic_app4, flipLogic_uniform. f_equal.
    pose proof (affected_ids4_neighbours _ _ Hc Hr) as Hperm.
    pose proof (neighbour_ids4_NoDup _ _ Hc Hr) as Hnd.
    rewrite affected_ids_uniform4 by done.
    apply toggle_all_same_set; [by rewrite Hperm | done |].
    intros k. by rewrite Hperm.
Qed.

Lemma edge_aware_policy_is_uniform_policy_witness :
  tail (App4.getAffectedCoordinates 3 0)
    ≡ₚ List.filter (Uniform.isOutOfBounds 4 4 3 0)
         (tail (Uniform.getAffectedCoordinates 3 0))
  ∧ ∀ state : State, App4.flipLogic state 3 0 = Uniform.flipLogic 4 4 state 3 0.
Proof. apply (edge_aware_policy_is_uniform_policy 3 0); lia. Defined.

(** ** The store: new objects only *)

Lemma preserves_refl h : preserves h h.
Proof. by intros l o. Qed.

Lemma preserves_trans h1 h2 h3 : preserves h1 h2 → preserves h2 h3 → preserves h1 h3.
Proof. intros H12 H23 l o Hl. eauto. Qed.

Lemma alloc_spec (o : State) (h : Store.heap) :
  (Store.alloc o h).2 !! (Store.alloc o h).1 = Some o
  ∧ preserves h (Store.alloc o h).2.
Proof.
  unfold Store.alloc. simpl. split.
  - apply lookup_insert_eq.
  - intros l o' Hl. rewrite lookup_insert_ne; [done|].
    intros <-. pose proof (is_fresh (dom h)) as Hfresh.
    apply Hfresh, elem_of_dom. eauto.
Qed.

Lemma spread_spec (state : Store.loc) (h : Store.heap) (s : State) :
  h !! state = Some s →
  ∃ l' h', Store.spread state h = Some (l', h')
           ∧ h' !! l' = Some s ∧ preserves h h'.
Proof.
  intros Hs. unfold Store.spread. rewrite Hs. simpl.
  destruct (alloc_spec s h) as [Hnew Hold].
  destruct (Store.alloc s h) as [l' h']. eauto.
Qed.

(** The reference-passing [reduce] computes what the fold over values
    computes, in a fresh object. *)
Lemma reduce_spec (step : State -> Z * Z -> State) (offsets : list (Z * Z)) :
  ∀ (l : Store.loc) (h : Store.heap) (s : State),
    h !! l = Some s →
    ∃ l' h', Store.reduce step offsets (Some (l, h)) = Some (l', h')
             ∧ h' !! l' = Some (foldl step s offsets) ∧ preserves h h'.
Proof.
  induction offsets as [|d offsets IH]; intros l h s Hs.
  - exists l, h. repeat split; [done | apply preserves_refl].
  - unfold Store.reduce in *. simpl. rewrite Hs. simpl.
    destruct (alloc_spec (step s d) h) as [Hnew Hold].
    destruct (Store.alloc (step s d) h) as [l1 h1]. simpl in *.
    destruct (IH l1 h1 _ Hnew) as (l' & h' & Hred & Hl' & Hpres).
    exists l', h'. repeat split; [done | done |].
    by apply preserves_trans with h1.
Qed.

Lemma flipLogic5_spec (state : Store.loc) (h : Store.heap) (s : State) column row :
  h !! state = Some s →
  ∃ next h', Store.flipLogic5 state column row h = Some (next, h')
             ∧ Some <$> h' !! next = Some (Part000.flipLogic s column row)
             ∧ preserves h h'.
Proof.
  intros Hs. unfold Store.flipLogic5, Store.applyAffectedCoordinatesToState5.
  simpl Uniform.getAffectedCoordinates. cbv iota.
  destruct (spread_spec _ _ _ Hs) as (l0 & h0 & -> & Hl0 & Hpres0).
  destruct (reduce_spec (Uniform.toggleAt column row)
              (List.filter (Uniform.isOutOfBounds 5 5 column row)
                 [(0, 0); (0, -1); (0, 1); (-1, 0); (1, 0)]) _ _ _ Hl0)
    as (next & h' & Hred & Hnext & Hpres).
  exists next, h'. split; [exact Hred|]. split.
  - rewrite Hnext. reflexivity.
  - by apply preserves_trans with h0.
Qed.

Lemma flipLogic4_spec (state : Store.loc) (h : Store.heap) (s : State) column row :
  h !! state = Some s →
  ∃ next h', Store.flipLogic4 state column row h = Some (next, h')
             ∧ Some <$> h' !! next = Some (App4.flipLogic s column row)
             ∧ preserves h h'.
Proof.
  intros Hs. unfold Store.flipLogic4, Store.applyAffectedCoordinatesToState4.
  pose proof (flipLogic_app4 s column row) as Hval.
  unfold App4.flipLogic, App4.applyAffectedCoordinatesToState in *.
  destruct (App4.getAffectedCoordinates column row) as [|[c r] rest]; [done|].
  destruct (spread_spec _ _ _ Hs) as (l0 & h0 & -> & Hl0 & Hpres0).
  destruct (reduce_spec (App4.toggleAt c r) rest _ _ _ Hl0)
    as (next & h' & Hred & Hnext & Hpres).
  exists next, h'. split; [exact Hred|]. split.
  - rewrite Hnext. reflexivity.
  - by apply preserves_trans with h0.
Qed.

(** ** Frame *)

(** C5. For every store, every state object in it and every in-bounds click,
    [flipLogic] (the 5x5 revision and the 4x4 one) returns an object that
    differs from the input only at identifiers of the clicked cell's
    in-bounds neighbour set; at every other identifier the two objects hold
    the same value, and the input object is still in the store as it was. *)
Theorem flipLogic_frame (h : Store.heap) (state : Store.loc) (s : State)
    (column row : Z) :
  h !! state = Some s →
  (0 ≤ column < 5 → 0 ≤ row < 5 →
   touches_only (neighbour_ids 5 5 column row)
     (Store.flipLogic5 state column row h) h state s)
  ∧ (0 ≤ column < 4 → 0 ≤ row < 4 →
     touches_only (neighbour_ids 4 4 column row)
       (Store.flipLogic4 state column row h) h state s).
Proof.
  intros Hs. split; intros Hc Hr.
  - destruct (flipLogic5_spec state h s column row Hs)
      as (next & h' & Hflip & Hnext & Hpres).
    unfold Part000.flipLogic in Hnext. rewrite flipLogic_uniform in Hnext.
    exists next, h', (toggle_all (affected_ids 5 5 column row) s).
    repeat split; [done | by apply Hpres | | ].
    + destruct (h' !! next); simplify_eq/=; done.
    + intros id Hid. apply lookup_toggle_all_notin.
      by rewrite affected_ids5_neighbours.
  - destruct (flipLogic4_spec state h s column row Hs)
      as (next & h' & Hflip & Hnext & Hpres).
    rewrite flipLogic_app4 in Hnext.
    exists next, h', (toggle_all (affected_ids4 column row) s).
    repeat split; [done | by apply Hpres | | ].
    + destruct (h' !! next); simplify_eq/=; done.
    + intros id Hid. apply lookup_toggle_all_notin.
      by rewrite affected_ids4_neighbours.
Qed.

Lemma flipLogic_frame_witness :
  touches_only (neighbour_ids 5 5 4 0)
    (Store.flipLogic5 1%positive 4 0 {[ 1%positive := {[ "3_0"%string := true ]} ]})
    {[ 1%positive := {[ "3_0"%string := true ]} ]} 1%positive
    {[ "3_0"%string := true ]}
  ∧ touches_only (neighbour_ids 4 4 1 3)
      (Store.flipLogic4 1%positive 1 3 {[ 1%positive := {[ "3_0"%string := true ]} ]})
      {[ 1%positive := {[ "3_0"%string := true ]} ]} 1%positive
      {[ "3_0"%string := true ]}.
Proof.
  split.
  - apply (flipLogic_frame {[ 1%positive := {[ "3_0"%string := true ]} ]} 1%positive
             {[ "3_0"%string := true ]} 4 0); [reflexivity | lia | lia].
  - apply (flipLogic_frame {[ 1%positive := {[ "3_0"%string := true ]} ]} 1%positive
             {[ "3_0"%string := true ]} 1 3); [reflexivity | lia | lia].
Defined.

(** ** The dot product modulo 2 *)

Lemma xorsum_ext (f g : nat -> bool) n :
  (∀ i, (i < n)%nat → f i = g i) → xorsum f n = xorsum g n.
Proof.
  induction n as [|n IH]; intros Hfg; [reflexivity|].
  simpl. rewrite IH, Hfg by (intros; try apply Hfg; lia). reflexivity.
Qed.

Lemma xorsum_xorb (a b m : nat -> bool) n :
  xorsum (fun i => xorb (a i) (b i) && m i) n
  = xorb (xorsum (fun i => a i && m i) n) (xorsum (fun i => b i && m i) n).
Proof.
  induction n as [|n IH]; [reflexivity|].
  simpl. rewrite IH.
  destruct (a n), (b n), (m n), (xorsum (fun i => a i && m i) n),
    (xorsum (fun i => b i && m i) n); reflexivity.
Qed.

Section DotProduct.

Variables (check : list Z) (magicValueTable : list (option Z)).
Variables (cb mb : nat -> bool) (n : nat).
Hypothesis check_bits : ∀ i, (i < n)%nat → check !! i = Some (Z.b2z (cb i)).
Hypothesis table_bits :
  ∀ i, (i < n)%nat → magicValueTable !! i = Some (Some (Z.b2z (mb i))).

Lemma dotStep_loop k :
  (k ≤ n)%nat →
  foldl (Uniform.dotStep check magicValueTable) (Some 0) (seqZ 0 (Z.of_nat k))
  = Some (Z.b2z (xorsum (fun i => cb i && mb i) k)).
Proof.
  induction k as [|k IH]; intros Hk; [reflexivity|].
  rewrite seqZ_S, foldl_snoc, IH by lia.
  unfold Uniform.dotStep. simpl.
  rewrite Z.add_0_l, Nat2Z.id, check_bits, table_bits by lia. simpl.
  by destruct (xorsum _ k), (cb k), (mb k).
Qed.

End DotProduct.

Lemma compare_as_xorsum rowCount colCount check table cb mb (n : nat) :
  Uniform.numCells rowCount colCount = Z.of_nat n →
  (∀ i, (i < n)%nat → check !! i = Some (Z.b2z (cb i))) →
  (∀ i, (i < n)%nat → table !! i = Some (Some (Z.b2z (mb i)))) →
  Uniform.compareCheckTableAgainstMagicValueTable rowCount colCount check table
  = negb (xorsum (fun i => cb i && mb i) n).
Proof.
  intros Hn Hc Ht. unfold Uniform.compareCheckTableAgainstMagicValueTable.
  rewrite Hn, (dotStep_loop check table cb mb n) by (done || lia).
  by destruct (xorsum _ n).
Qed.

(** ** The magic tables *)

Lemma magic_table_bits (k i : nat) :
  (k < 2)%nat → (i < 25)%nat →
  (Magic.magicValues !!! k) !! i = Some (Some (Z.b2z (magic_bit k i))).
Proof.
  intros Hk Hi.
  destruct k as [|[|k]]; [| |lia];
    do 25 (destruct i as [|i]; [reflexivity|]); lia.
Qed.

Lemma check_table_000 (s : State) (i : nat) :
  (i < 25)%nat →
  Part000.puzzleStateToCheckTable s !! i
  = Some (Z.b2z (JS.truthy_at s (cell_of_index i))).
Proof.
  intros Hi. unfold Part000.puzzleStateToCheckTable.
  change Part000.numCells with 25.
  rewrite list_lookup_fmap, lookup_seqZ_lt by lia.
  unfold cell_of_index. simpl.
  by destruct (JS.truthy_at s _).
Qed.

Lemma check_table_001 (s : State) (i : nat) :
  (i < 25)%nat →
  Part001.puzzleStateToCheckTable s !! i
  = Some (Z.b2z (negb (JS.truthy_at s (cell_of_index i)))).
Proof.
  intros Hi. unfold Part001.puzzleStateToCheckTable.
  change Part001.numCells with 25.
  rewrite list_lookup_fmap, lookup_seqZ_lt by lia.
  unfold cell_of_index. simpl.
  by destruct (JS.truthy_at s _).
Qed.

Lemma compare_000 (s : State) (k : nat) :
  (k < 2)%nat →
  Part000.compareCheckTableAgainstMagicValueTable
    (Part000.puzzleStateToCheckTable s) (Part000.magicValues !!! k)
  = negb (overlap k s).
Proof.
  intros Hk. unfold Part000.compareCheckTableAgainstMagicValueTable, overlap.
  apply (compare_as_xorsum 5 5 _ _
           (fun i => JS.truthy_at s (cell_of_index i)) (magic_bit k) 25).
  - reflexivity.
  - intros i Hi. by apply check_table_000.
  - intros i Hi. by apply magic_table_bits.
Qed.

Lemma isPuzzleSolvable_000 (s : State) :
  Part000.isPuzzleSolvable s = negb (overlap 0 s) && negb (overlap 1 s).
Proof.
  unfold Part000.isPuzzleSolvable. cbv zeta.
  rewrite !compare_000 by lia. reflexivity.
Qed.

(** Each table has an even number of ones. *)
Lemma magic_tables_even (k : nat) :
  (k < 2)%nat → xorsum (fun i => true && magic_bit k i) 25 = false.
Proof. intros Hk. destruct k as [|[|k]]; [by vm_compute..|lia]. Qed.

Lemma compare_001 (s : State) (k : nat) :
  (k < 2)%nat →
  Part001.compareCheckTableAgainstMagicValueTable
    (Part001.puzzleStateToCheckTable s) (Part001.magicValues !!! k)
  = negb (overlap k s).
Proof.
  intros Hk. unfold Part001.compareCheckTableAgainstMagicValueTable, overlap.
  rewrite (compare_as_xorsum 5 5 _ _
             (fun i => xorb true (JS.truthy_at s (cell_of_index i)))
             (magic_bit k) 25).
  - rewrite xorsum_xorb, magic_tables_even by done. reflexivity.
  - reflexivity.
  - intros i Hi. by apply check_table_001.
  - intros i Hi. by apply magic_table_bits.
Qed.

Lemma isPuzzleSolvable_001 (s : State) :
  Part001.isPuzzleSolvable s = negb (overlap 0 s) && negb (overlap 1 s).
Proof.
  unfold Part001.isPuzzleSolvable. cbv zeta.
  rewrite !compare_001 by lia. reflexivity.
Qed.

(** ** Solvability is preserved by a click *)

(** Every click pattern of the 5x5 board meets each magic table in an even
    number of cells. *)
Lemma click_orthogonal (k : nat) (column row : Z) :
  (k < 2)%nat → 0 ≤ column < 5 → 0 ≤ row < 5 →
  xorsum (fun i => odd_occ (cell_of_index i) (affected_ids 5 5 column row)
                   && magic_bit k i) 25 = false.
Proof.
  intros Hk Hc Hr. destruct k as [|[|k]]; [| |lia];
    split_click Hc Hr; vm_compute; reflexivity.
Qed.

Lemma overlap_flip (k : nat) (s : State) (column row : Z) :
  (k < 2)%nat → 0 ≤ column < 5 → 0 ≤ row < 5 →
  overlap k (toggle_all (affected_ids 5 5 column row) s) = overlap k s.
Proof.
  intros Hk Hc Hr. unfold overlap.
  rewrite (xorsum_ext _
             (fun i => xorb (odd_occ (cell_of_index i) (affected_ids 5 5 column row))
                            (JS.truthy_at s (cell_of_index i))
                       && magic_bit k i)).
  - rewrite xorsum_xorb, click_orthogonal by done. reflexivity.
  - intros i _. by rewrite truthy_toggle_all.
Qed.

(** C1. On the 5x5 board, for every solvable state and every in-bounds click,
    [flipLogic] returns a state and [isPuzzleSolvable] holds of it. *)
Theorem flipLogic_preserves_solvable (state : State) (column row : Z) :
  Part000.isPuzzleSolvable state = true →
  0 ≤ column < Part000.colCount → 0 ≤ row < Part000.rowCount →
  ∃ next, Part000.flipLogic state column row = Some next
          ∧ Part000.isPuzzleSolvable next = true.
Proof.
  intros Hsolvable Hc Hr.
  exists (toggle_all (affected_ids 5 5 column row) state). split.
  - apply flipLogic_uniform.
  - rewrite isPuzzleSolvable_000 in *.
    by rewrite !overlap_flip by (done || lia).
Qed.

Lemma flipLogic_preserves_solvable_witness :
  ∃ next, Part000.flipLogic {[ "2_2"%string := true ]} 0 4 = Some next
          ∧ Part000.isPuzzleSolvable next = true.
Proof.
  apply (flipLogic_preserves_solvable {[ "2_2"%string := true ]} 0 4);
    [vm_compute; reflexivity | vm_compute; split; congruence..].
Defined.

(** ** The two polarities *)

(** C9. On the 5x5 board the oracle of [part_000] (check vector 1 where lit)
    and the oracle of [part_001] (check vector 1 where unlit) return the same
    boolean for every state; each decoded magic table has an even number of
    entries equal to 1. *)
Theorem polarities_agree :
  (∀ state : State, Part000.isPuzzleSolvable state = Part001.isPuzzleSolvable state)
  ∧ Forall (fun table => Nat.even (ones table) = true) Magic.magicValues.
Proof.
  split.
  - intros state. by rewrite isPuzzleSolvable_000, isPuzzleSolvable_001.
  - repeat constructor.
Qed.

(** ** The cleared state and the winning state *)

(** C4. [isPuzzleSolvable] returns [true] on the empty state, with the check
    vector of [part_000] (all 0) and with that of [part_001] (all 1). *)
Theorem empty_state_is_solvable :
  Part000.puzzleStateToCheckTable ∅ = replicate 25 0
  ∧ Part000.isPuzzleSolvable ∅ = true
  ∧ Part001.puzzleStateToCheckTable ∅ = replicate 25 1
  ∧ Part001.isPuzzleSolvable ∅ = true.
Proof. repeat split; vm_compute; reflexivity. Qed.

Lemma cell_of_index_eq (i : nat) :
  (i < 25)%nat →
  cell_of_index i
  = Part000.getPuzzleCellIdFromCooordinate (Z.of_nat i `mod` 5) (Z.of_nat i `div` 5).
Proof. intros Hi. do 25 (destruct i as [|i]; [reflexivity|]). lia. Qed.

Lemma index_of_cell (column row : Z) :
  0 ≤ column < 5 → 0 ≤ row < 5 →
  Part000.getColumnRowFromIndex (row * 5 + column) = (column, row).
Proof. intros Hc Hr. split_click Hc Hr; reflexivity. Qed.

Lemma overlap_all_lit (k : nat) (s : State) :
  (k < 2)%nat → all_lit s → overlap k s = false.
Proof.
  intros Hk Hlit. unfold overlap.
  rewrite (xorsum_ext _ (fun i => true && magic_bit k i)).
  - by apply magic_tables_even.
  - intros i Hi. rewrite cell_of_index_eq by done.
    unfold JS.truthy_at. rewrite Hlit; [done| |].
    + apply Z.mod_pos_bound. lia.
    + split; [apply Z.div_pos; lia | apply Z.div_lt_upper_bound; lia].
Qed.

(** C10. A state of the 5x5 board that maps every in-grid cell identifier to
    [true] is accepted by both oracles. *)
Theorem all_lit_is_solvable (state : State) :
  all_lit state →
  Part000.isPuzzleSolvable state = true ∧ Part001.isPuzzleSolvable state = true.
Proof.
  intros Hlit. rewrite isPuzzleSolvable_000, isPuzzleSolvable_001.
  by rewrite !overlap_all_lit by (done || lia).
Qed.

Lemma all_lit_is_solvable_witness :
  Part000.isPuzzleSolvable winning_state = true
  ∧ Part001.isPuzzleSolvable winning_state = true.
Proof.
  apply (all_lit_is_solvable winning_state).
  intros column row Hc Hr. split_click Hc Hr; reflexivity.
Defined.

(** ** Decoding the magic constants *)

Lemma binary_digits_acc (p : positive) (acc : string) :
  map JS.Number (JS.split_chars (JS.binary_digits p acc))
  = msb_first p ++ map JS.Number (JS.split_chars acc).
Proof.
  revert acc. induction p as [p IH|p IH|]; intros acc; simpl.
  - rewrite IH, <- app_assoc. reflexivity.
  - rewrite IH, <- app_assoc. reflexivity.
  - reflexivity.
Qed.

Lemma decode_positive (p : positive) :
  Magic.decodeMagicValueToTable (Z.pos p) = msb_first p.
Proof.
  unfold Magic.decodeMagicValueToTable. simpl.
  rewrite binary_digits_acc. apply app_nil_r.
Qed.

Lemma msb_first_length (p : positive) : length (msb_first p) = Pos.size_nat p.
Proof.
  induction p as [p IH|p IH|]; simpl; rewrite ?length_app, ?IH; simpl; lia.
Qed.

(** [decodeMagicValueToTable] of a positive integer lists its bits from the
    top one down. *)
Lemma msb_first_lookup (p : positive) (i : nat) :
  (i < Pos.size_nat p)%nat →
  msb_first p !! i
  = Some (Some (Z.b2z (Z.testbit (Z.pos p)
                         (Z.of_nat (Pos.size_nat p) - 1 - Z.of_nat i)))).
Proof.
  revert i. induction p as [p IH|p IH|]; intros i Hi; simpl in Hi |- *.
  - destruct (decide (i < Pos.size_nat p)%nat) as [Hlt|Hge].
    + rewrite lookup_app_l by (rewrite msb_first_length; lia).
      rewrite IH by done. do 3 f_equal.
      replace (Z.of_nat (S (Pos.size_nat p)) - 1 - Z.of_nat i)
        with (Z.succ (Z.of_nat (Pos.size_nat p) - 1 - Z.of_nat i)) by lia.
      rewrite Pos2Z.inj_xI, Z.testbit_odd_succ by lia. reflexivity.
    + assert (i = Pos.size_nat p) as -> by lia.
      rewrite lookup_app_r by (rewrite msb_first_length; lia).
      rewrite msb_first_length, Nat.sub_diag.
      replace (Z.of_nat (S (Pos.size_nat p)) - 1 - Z.of_nat (Pos.size_nat p))
        with 0 by lia.
      reflexivity.
  - destruct (decide (i < Pos.size_nat p)%nat) as [Hlt|Hge].
    + rewrite lookup_app_l by (rewrite msb_first_length; lia).
      rewrite IH by done. do 3 f_equal.
      replace (Z.of_nat (S (Pos.size_nat p)) - 1 - Z.of_nat i)
        with (Z.succ (Z.of_nat (Pos.size_nat p) - 1 - Z.of_nat i)) by lia.
      rewrite Pos2Z.inj_xO, Z.testbit_even_succ by lia. reflexivity.
    + assert (i = Pos.size_nat p) as -> by lia.
      rewrite lookup_app_r by (rewrite msb_first_length; lia).
      rewrite msb_first_length, Nat.sub_diag.
      replace (Z.of_nat (S (Pos.size_nat p)) - 1 - Z.of_nat (Pos.size_nat p))
        with 0 by lia.
      reflexivity.
  - assert (i = 0%nat) as -> by lia. reflexivity.
Qed.

Lemma msb_first_bits (p : positive) :
  Forall (fun entry => entry = Some 0 ∨ entry = Some 1) (msb_first p).
Proof.
  induction p as [p IH|p IH|]; simpl; rewrite ?Forall_app;
    repeat split; auto; repeat constructor; auto.
Qed.

(** C6. [decodeMagicValueToTable] maps each of the constants [0x15a82b5] and
    [0x1b06c1b] to a table of [numCells = 25] entries, each 0 or 1, whose
    entry [i] is bit [24 - i] of the constant: its binary digits, most
    significant first. *)
Theorem decoded_tables_are_msb_first :
  Forall
    (fun magicValue =>
       let table := Magic.decodeMagicValueToTable magicValue in
       Z.of_nat (length table) = Part000.numCells
       ∧ Forall (fun entry => entry = Some 0 ∨ entry = Some 1) table
       ∧ ∀ i : nat, (i < 25)%nat →
           table !! i = Some (Some (Z.b2z (Z.testbit magicValue (24 - Z.of_nat i)))))
    [0x15a82b5; 0x1b06c1b]
  ∧ Magic.magicValues = map Magic.decodeMagicValueToTable [0x15a82b5; 0x1b06c1b].
Proof.
  split; [|reflexivity].
  repeat apply Forall_cons_2; [..|apply Forall_nil_2]; cbv zeta;
    rewrite decode_positive;
    (split; [by rewrite msb_first_length|split; [apply msb_first_bits|]]);
    intros i Hi; by rewrite msb_first_lookup.
Qed.

(** ** The win check *)

Lemma filter_keeps_all {A} (f : A -> bool) (l : list A) :
  length (List.filter f l) = length l ↔ Forall (fun x => f x = true) l.
Proof.
  induction l as [|a l IH]; simpl.
  - split; [constructor | reflexivity].
  - pose proof (List.filter_length_le f l) as Hle.
    destruct (f a) eqn:Hfa; simpl.
    + rewrite Forall_cons. split.
      * intros [= Hlen]. split; [done | by apply IH].
      * intros [_ Hall]. f_equal. by apply IH.
    + split; [lia|]. intros [Ha _]%Forall_cons. congruence.
Qed.

Lemma numLights_full (cells : list Uniform.Cell) :
  Uniform.numLights cells = Z.of_nat (length cells)
  ↔ Forall (fun cell => Uniform.cell_lit cell = true) cells.
Proof.
  unfold Uniform.numLights. rewrite Nat2Z.inj_iff. apply filter_keeps_all.
Qed.

(** C7. On the 5x5 board the win check of [PuzzleView] succeeds exactly when
    [state[id]] is truthy for every in-grid cell identifier: the number of
    descriptors of [calculatePuzzleCellsFromState] whose [lit] flag is set
    equals [numCells] if and only if every cell of the grid reads lit. *)
Theorem win_check_iff_every_cell_lit (state : State) :
  Uniform.numLights (Part001.calculatePuzzleCellsFromState state) = Part001.numCells
  ↔ ∀ column row, 0 ≤ column < Part001.colCount → 0 ≤ row < Part001.rowCount →
      JS.truthy_at state (Part001.getPuzzleCellIdFromCooordinate column row) = true.
Proof.
  change Part001.numCells
    with (Z.of_nat (length (Part001.calculatePuzzleCellsFromState state))).
  rewrite numLights_full.
  unfold Part001.calculatePuzzleCellsFromState, Uniform.calculatePuzzleCellsFromState.
  change (Uniform.numCells Part001.rowCount Part001.colCount) with 25.
  rewrite Forall_map, Forall_forall.
  split.
  - intros Hall column row Hc Hr.
    specialize (Hall (row * 5 + column)).
    change (Uniform.getColumnRowFromIndex Part001.colCount)
      with Part000.getColumnRowFromIndex in Hall.
    rewrite index_of_cell in Hall by done. cbn [Uniform.cell_lit] in Hall.
    rewrite negb_involutive in Hall. apply Hall.
    apply elem_of_seqZ.
    unfold Part001.colCount, Part001.rowCount in *. lia.
  - intros Hall i Hi%elem_of_seqZ.
    pose proof (cell_of_index_eq (Z.to_nat i)) as Hcell.
    unfold cell_of_index in Hcell. rewrite Z2Nat.id in Hcell by lia.
    change (Uniform.getColumnRowFromIndex Part001.colCount)
      with Part000.getColumnRowFromIndex.
    destruct (Part000.getColumnRowFromIndex i) as [column row].
    cbn [Uniform.cell_lit].
    unfold Part000.getPuzzleCellIdFromCooordinate in Hcell.
    rewrite negb_involutive, Hcell by lia.
    apply Hall.
    + apply Z.mod_pos_bound. unfold Part001.colCount. lia.
    + unfold Part001.rowCount.
      split; [apply Z.div_pos; lia | apply Z.div_lt_upper_bound; lia].
Qed.

(** ** Actions the reducer does not know *)

(** An action type that names neither a handler nor a member of
    [Object.prototype] leaves the state as it is. *)
Lemma reduceWith_unknown handlers (state : State) (action : Reducer.Action) :
  JS.assoc (Reducer.type action) handlers = None →
  JS.inherited (Reducer.type action) = None →
  Reducer.reduceWith handlers state action = Some (Reducer.VState state).
Proof.
  intros Hown Hproto. unfold Reducer.reduceWith, Reducer.getMember.
  by rewrite Hown, Hproto.
Qed.

(** C8. The action types [toString] and [hasOwnProperty] are none of
    [RESET_PUZZLE], [FLIP], [FLIP_SINGLE], yet for no state does
    [puzzleReducer] hand the state back for them: the handler table is an
    object literal, the lookup finds the member of [Object.prototype], and the
    reducer calls it.  For [toString] it returns a string, for
    [hasOwnProperty] it throws, in the editor revision and in the 4x4 one
    alike. *)
Theorem puzzleReducer_calls_inherited_members :
  let toString :=
    {| Reducer.type := "toString"; Reducer.column := 0; Reducer.row := 0 |} in
  let hasOwnProperty :=
    {| Reducer.type := "hasOwnProperty"; Reducer.column := 0; Reducer.row := 0 |} in
  JS.assoc (Reducer.type toString) Reducer.Part000.puzzleReducerActionHandlers = None
  ∧ JS.assoc (Reducer.type hasOwnProperty) Reducer.Part000.puzzleReducerActionHandlers
    = None
  ∧ ∀ state : State,
      Reducer.Part000.puzzleReducer state toString
      = Some (Reducer.VString "[object Undefined]")
      ∧ Reducer.App4.puzzleReducer state toString
        = Some (Reducer.VString "[object Undefined]")
      ∧ Reducer.Part000.puzzleReducer state hasOwnProperty = None
      ∧ Reducer.App4.puzzleReducer state hasOwnProperty = None.
Proof. repeat split. Qed.

(** A recognised action, and one that is unknown all the way up the
    prototype chain. *)
Example puzzleReducer_reset (state : State) :
  Reducer.Part000.puzzleReducer state
    {| Reducer.type := "RESET_PUZZLE"; Reducer.column := 0; Reducer.row := 0 |}
  = Some (Reducer.VState ∅).
Proof. reflexivity. Qed.

Example puzzleReducer_unknown (state : State) :
  Reducer.Part000.puzzleReducer state
    {| Reducer.type := "SHUFFLE"; Reducer.column := 0; Reducer.row := 0 |}
  = Some (Reducer.VState state).
Proof. by apply reduceWith_unknown. Qed.

(** The scenario of the specification: the corner click on the 4x4 board. *)
Example corner_click_4x4 :
  App4.flipLogic ∅ 0 0
  = Some (<[ "0_1"%string := true ]>
            (<[ "1_0"%string := true ]> {[ "0_0"%string := true ]})).
Proof. by_evaluation. Qed.

(** [FLIP_SINGLE] in the editor toggles the one cell. *)
Example flip_single_centre :
  Reducer.Part000.puzzleReducer ∅
    {| Reducer.type := "FLIP_SINGLE"; Reducer.column := 2; Reducer.row := 2 |}
  = Some (Reducer.VState {[ "2_2"%string := true ]}).
Proof. reflexivity. Qed.

(** * Further properties of the engine *)

(** ** Cell identifiers *)

Lemma pretty_N_go_no_underscore (x : N) (s : string) :
  no_underscore s = true → no_underscore (pretty_N_go x s) = true.
Proof.
  revert s. induction (N.lt_wf_0 x) as [x _ IH]; intros s Hs.
  assert (x = 0 ∨ 0 < x)%N as [->|Hpos] by lia.
  - by rewrite pretty_N_go_0.
  - rewrite pretty_N_go_step by done. apply IH.
    + by apply N.div_lt.
    + simpl. rewrite Hs. unfold pretty_N_char. by repeat case_match.
Qed.

Lemma numberToString_no_underscore (z : Z) :
  no_underscore (JS.numberToString z) = true.
Proof.
  unfold JS.numberToString, pretty, pretty_Z.
  destruct z as [|p|p]; [done| |]; unfold pretty, pretty_positive, pretty, pretty_N;
    simpl; by apply pretty_N_go_no_underscore.
Qed.

Lemma split_at_underscore (s1 s2 t1 t2 : string) :
  no_underscore s1 = true → no_underscore s2 = true →
  s1 +:+ "_" +:+ t1 = s2 +:+ "_" +:+ t2 → s1 = s2 ∧ t1 = t2.
Proof.
  revert s2. induction s1 as [|c s1 IH]; intros [|c' s2]; simpl; intros H1 H2 Heq.
  - by injection Heq.
  - injection Heq as <- _. done.
  - injection Heq as -> _. done.
  - injection Heq as -> Heq.
    apply andb_true_iff in H1 as [_ H1]. apply andb_true_iff in H2 as [_ H2].
    destruct (IH s2 H1 H2 Heq) as [-> ->]. done.
Qed.

Lemma cell_id_inj (cell cell' : Z * Z) :
  Uniform.getPuzzleCellIdFromCooordinate cell.1 cell.2
  = Uniform.getPuzzleCellIdFromCooordinate cell'.1 cell'.2 →
  cell = cell'.
Proof.
  destruct cell as [c r], cell' as [c' r']. simpl. intros Heq.
  unfold Uniform.getPuzzleCellIdFromCooordinate in Heq.
  apply split_at_underscore in Heq as [Hc Hr];
    auto using numberToString_no_underscore.
  f_equal; by apply (inj pretty).
Qed.

(** X1. [getPuzzleCellIdFromCooordinate] is injective on pairs of safe
    integers, negative ones included: two cells with the same identifier have
    the same column and the same row. *)
Theorem cell_id_injective (column row column' row' : Z) :
  safe_integer column → safe_integer row →
  safe_integer column' → safe_integer row' →
  Uniform.getPuzzleCellIdFromCooordinate column row
  = Uniform.getPuzzleCellIdFromCooordinate column' row' →
  column = column' ∧ row = row'.
Proof.
  intros _ _ _ _ Heq. apply (cell_id_inj (column, row) (column', row')) in Heq.
  by injection Heq.
Qed.

Lemma cell_id_injective_witness : 12 = 12 ∧ -3 = -3.
Proof.
  apply (cell_id_injective 12 (-3) 12 (-3));
    [unfold safe_integer; lia.. | reflexivity].
Defined.

(** ** Indices and coordinates *)

Lemma toInt32_small (z : Z) : - 2 ^ 31 ≤ z < 2 ^ 31 → JS.toInt32 z = z.
Proof. intros Hz. unfold JS.toInt32. rewrite Z.mod_small; lia. Qed.

(** X2. For a column count and an index in the positive 32-bit range (the
    index from 0), [getColumnRowFromIndex] returns the remainder and the quotient of
    the index by the column count; the column lies on the board, and
    [row * colCount + column] gives the index back. *)
Theorem index_coordinate_round_trip (colCount index : Z) :
  0 < colCount < 2 ^ 31 → 0 ≤ index < 2 ^ 31 →
  ∃ column row,
    Uniform.getColumnRowFromIndex colCount index = (column, row)
    ∧ column = index `mod` colCount ∧ row = index `div` colCount
    ∧ 0 ≤ column < colCount ∧ 0 ≤ row
    ∧ row * colCount + column = index.
Proof.
  intros [Hcol _] Hidx. exists (index `mod` colCount), (index `div` colCount).
  unfold Uniform.getColumnRowFromIndex.
  destruct (Z.eqb_spec colCount 0) as [->|_]; [lia|].
  rewrite Z.rem_mod_nonneg, Z.quot_div_nonneg by lia.
  pose proof (Z.mod_pos_bound index colCount Hcol) as Hmod.
  pose proof (Z.div_pos index colCount ltac:(lia) Hcol) as Hdiv.
  pose proof (Z.div_le_upper_bound index colCount index Hcol ltac:(nia)) as Hle.
  pose proof (Z.mod_le index colCount ltac:(lia) Hcol) as Hmle.
  rewrite !toInt32_small by lia.
  repeat split; try lia.
  rewrite (Z.div_mod index colCount) at 3 by lia. lia.
Qed.

Lemma index_coordinate_round_trip_witness :
  ∃ column row,
    Uniform.getColumnRowFromIndex 5 17 = (column, row)
    ∧ column = 17 `mod` 5 ∧ row = 17 `div` 5
    ∧ 0 ≤ column < 5 ∧ 0 ≤ row
    ∧ row * 5 + column = 17.
Proof. apply (index_coordinate_round_trip 5 17); lia. Defined.

(** ** Decoding, in general *)

Lemma size_nat_bounds (p : positive) :
  2 ^ Z.of_nat (Pos.size_nat p) ≤ 2 * Z.pos p
  ∧ Z.pos p < 2 ^ Z.of_nat (Pos.size_nat p).
Proof.
  induction p as [p IH|p IH|]; simpl Pos.size_nat;
    rewrite ?Nat2Z.inj_succ, ?Z.pow_succ_r by lia; lia.
Qed.

Lemma msb_first_head (p : positive) : msb_first p !! 0%nat = Some (Some 1).
Proof.
  induction p as [p IH|p IH|]; simpl; [..|done];
    (rewrite lookup_app_l; [done|]);
    rewrite msb_first_length; destruct p; simpl; lia.
Qed.

(** X3. For every positive safe integer, [decodeMagicValueToTable] returns its
    binary expansion without leading zeros: a table of [n] entries with
    [2^(n-1) <= magicValue < 2^n], whose first entry is 1 and whose entry [i]
    is bit [n - 1 - i] of the integer. *)
Theorem decode_is_binary_expansion (magicValue : Z) :
  0 < magicValue < 2 ^ 53 →
  let table := Magic.decodeMagicValueToTable magicValue in
  let n := Z.of_nat (length table) in
  2 ^ (n - 1) ≤ magicValue < 2 ^ n
  ∧ table !! 0%nat = Some (Some 1)
  ∧ ∀ i : nat, Z.of_nat i < n →
      table !! i = Some (Some (Z.b2z (Z.testbit magicValue (n - 1 - Z.of_nat i)))).
Proof.
  intros [Hpos _]. destruct magicValue as [|p|p]; [lia| |lia]. cbv zeta.
  rewrite decode_positive, msb_first_length.
  destruct (size_nat_bounds p) as [Hlow Hhigh].
  assert (0 < Pos.size_nat p)%nat as Hsize by (destruct p; simpl; lia).
  repeat split; [| done | apply msb_first_head |].
  - replace (Z.of_nat (Pos.size_nat p))
      with (Z.succ (Z.of_nat (Pos.size_nat p) - 1)) in Hlow by lia.
    rewrite Z.pow_succ_r in Hlow by lia. lia.
  - intros i Hi. apply msb_first_lookup. lia.
Qed.

Lemma decode_is_binary_expansion_witness :
  let table := Magic.decodeMagicValueToTable 22 in
  let n := Z.of_nat (length table) in
  2 ^ (n - 1) ≤ 22 < 2 ^ n
  ∧ table !! 0%nat = Some (Some 1)
  ∧ ∀ i : nat, Z.of_nat i < n →
      table !! i = Some (Some (Z.b2z (Z.testbit 22 (n - 1 - Z.of_nat i)))).
Proof. apply (decode_is_binary_expansion 22). lia. Defined.

(** ** The comparison loop *)

Lemma dotStep_None check table (indices : list Z) :
  foldl (Uniform.dotStep check table) None indices = None.
Proof. induction indices as [|i indices IH]; [reflexivity|exact IH]. Qed.

Lemma compare_rejects_missing (rowCount colCount : Z)
    (check : list Z) (table : list (option Z)) (i : nat) :
  Z.of_nat i < Uniform.numCells rowCount colCount →
  check !! i = None ∨ mjoin (table !! i) = None →
  Uniform.compareCheckTableAgainstMagicValueTable rowCount colCount check table
  = false.
Proof.
  intros Hi Hmissing. unfold Uniform.compareCheckTableAgainstMagicValueTable.
  set (n := Uniform.numCells rowCount colCount) in *.
  replace n with (Z.of_nat i + (1 + (n - Z.of_nat i - 1))) by lia.
  rewrite seqZ_app, foldl_app by lia.
  rewrite (seqZ_app _ 1), foldl_app by lia.
  assert (foldl (Uniform.dotStep check table)
            (foldl (Uniform.dotStep check table) (Some 0) (seqZ 0 (Z.of_nat i)))
            (seqZ (0 + Z.of_nat i) 1) = None) as ->.
  { simpl. unfold Uniform.dotStep at 1.
    destruct (foldl _ _ _) as [d|]; [|reflexivity]. simpl.
    replace (Z.to_nat (Z.of_nat 0 + (0 + Z.of_nat i))) with i by lia.
    destruct Hmissing as [-> | ->]; [reflexivity|].
    by destruct (check !! i). }
  by rewrite dotStep_None.
Qed.

(** X4. [compareCheckTableAgainstMagicValueTable] returns [false] as soon as
    one index below [numCells] has no entry in the check vector, no entry in
    the magic table, or a [NaN] entry there: the running product becomes [NaN]
    and stays so. *)
Theorem compare_rejects_missing_entries (rowCount colCount : Z)
    (check : list Z) (table : list (option Z)) (i : nat) :
  Z.of_nat i < Uniform.numCells rowCount colCount →
  check !! i = None ∨ table !! i = None ∨ table !! i = Some None →
  Uniform.compareCheckTableAgainstMagicValueTable rowCount colCount check table
  = false.
Proof.
  intros Hi Hmissing. apply (compare_rejects_missing _ _ _ _ i Hi).
  destruct Hmissing as [->|[->| ->]]; auto.
Qed.

Lemma compare_rejects_missing_entries_witness :
  Uniform.compareCheckTableAgainstMagicValueTable 5 5
    (replicate 25 0) (replicate 24 (Some 0)) = false.
Proof.
  apply (compare_rejects_missing_entries 5 5 _ _ 24);
    [vm_compute; reflexivity | right; left; reflexivity].
Defined.

Lemma rem_2_parity (x : Z) :
  -1 ≤ Z.rem x 2 ≤ 1 ∧ Z.even (Z.rem x 2) = Z.even x.
Proof.
  pose proof (Z.quot_rem' x 2) as Hx.
  split.
  - pose proof (Z.rem_bound_abs x 2). lia.
  - rewrite Hx at 2. rewrite Z.add_comm, Z.even_add_mul_2. reflexivity.
Qed.

Lemma dot_snoc (check table : list Z) (c m : Z) :
  length check = length table →
  dot (check ++ [c]) (table ++ [m]) = dot check table + c * m.
Proof.
  intros Hlen. unfold dot.
  rewrite zip_with_app by done. rewrite foldr_app. simpl.
  generalize (zip_with Z.mul check table). intros l.
  induction l as [|x l IH]; simpl; lia.
Qed.

Section DotParity.

Variables (check table : list Z).

(** The loop invariant: the running value is -1, 0 or 1 and has the parity of
    the products summed so far. *)
Lemma dotStep_parity (k : nat) :
  (k ≤ length check)%nat → (k ≤ length table)%nat →
  ∃ d, foldl (Uniform.dotStep check (Some <$> table)) (Some 0)
         (seqZ 0 (Z.of_nat k)) = Some d
       ∧ -1 ≤ d ≤ 1
       ∧ Z.even d = Z.even (dot (take k check) (take k table)).
Proof.
  induction k as [|k IH]; intros Hc Ht.
  - exists 0. repeat split; lia.
  - destruct IH as (d & Hd & _ & Hpar); [lia..|].
    destruct (lookup_lt_is_Some_2 check k ltac:(lia)) as [c Hck].
    destruct (lookup_lt_is_Some_2 table k ltac:(lia)) as [m Hmk].
    exists (Z.rem (d + c * m) 2).
    rewrite seqZ_S, foldl_snoc, Hd. unfold Uniform.dotStep. simpl.
    rewrite Z.add_0_l, Nat2Z.id, Hck, list_lookup_fmap, Hmk. simpl.
    destruct (rem_2_parity (d + c * m)) as [Hbound Heven].
    repeat split; [lia..|].
    rewrite Heven, (take_S_r check k c), (take_S_r table k m) by done.
    rewrite dot_snoc by (rewrite !length_take; lia).
    by rewrite !Z.even_add, Hpar.
Qed.

End DotParity.

(** X5. For a check vector and a magic table of [numCells] integers each, of
    either sign and at most [2^26] in absolute value (so that every product is
    exact), [compareCheckTableAgainstMagicValueTable] returns [true] exactly
    when their dot product is even. *)
Theorem compare_is_parity_of_dot_product (rowCount colCount : Z)
    (check table : list Z) :
  Forall (fun c => Z.abs c ≤ 2 ^ 26) check →
  Forall (fun m => Z.abs m ≤ 2 ^ 26) table →
  Z.of_nat (length check) = Uniform.numCells rowCount colCount →
  Z.of_nat (length table) = Uniform.numCells rowCount colCount →
  Uniform.compareCheckTableAgainstMagicValueTable rowCount colCount
    check (Some <$> table)
  = Z.even (dot check table).
Proof.
  intros _ _ Hc Ht. unfold Uniform.compareCheckTableAgainstMagicValueTable.
  rewrite <- Hc.
  destruct (dotStep_parity check table (length check)) as (d & -> & Hd & Hpar);
    [lia..|].
  rewrite !firstn_all2 in Hpar by lia. rewrite <- Hpar.
  assert (d = -1 ∨ d = 0 ∨ d = 1) as [->|[->| ->]] by lia; reflexivity.
Qed.

Lemma compare_is_parity_of_dot_product_witness :
  Uniform.compareCheckTableAgainstMagicValueTable 2 2
    [1; -3; 0; 7] (Some <$> [1; 1; 5; 2])
  = Z.even (dot [1; -3; 0; 7] [1; 1; 5; 2]).
Proof.
  apply (compare_is_parity_of_dot_product 2 2 [1; -3; 0; 7] [1; 1; 5; 2]);
    [repeat (apply Forall_cons_2; [lia|]); apply Forall_nil_2..
    | reflexivity | reflexivity].
Defined.

(** X6. A safe integer below [2^24] (zero and the negative ones included)
    decodes to a table that [compareCheckTableAgainstMagicValueTable] of the
    5x5 board rejects for every check vector: the decoding drops leading
    zeros, so the table is shorter than [numCells], or starts with [NaN]. *)
Theorem small_magic_value_rejects_every_state (magicValue : Z) (check : list Z) :
  - 2 ^ 53 < magicValue < 2 ^ 24 →
  Part000.compareCheckTableAgainstMagicValueTable check
    (Magic.decodeMagicValueToTable magicValue) = false.
Proof.
  intros [_ Hsmall]. unfold Part000.compareCheckTableAgainstMagicValueTable.
  destruct magicValue as [|p|p].
  - apply (compare_rejects_missing _ _ _ _ 1); [by vm_compute|]. by right.
  - apply (compare_rejects_missing _ _ _ _ 24); [by vm_compute|]. right.
    rewrite decode_positive, lookup_ge_None_2; [done|].
    rewrite msb_first_length.
    destruct (size_nat_bounds p) as [Hlow _].
    destruct (decide (Pos.size_nat p ≤ 24)%nat) as [|Hbig]; [lia|].
    assert (2 ^ 25 ≤ 2 ^ Z.of_nat (Pos.size_nat p))
      by (apply Z.pow_le_mono_r; lia).
    lia.
  - apply (compare_rejects_missing _ _ _ _ 0); [by vm_compute|]. by right.
Qed.

Lemma small_magic_value_rejects_every_state_witness :
  Part000.compareCheckTableAgainstMagicValueTable
    (Part000.puzzleStateToCheckTable ∅)
    (Magic.decodeMagicValueToTable 0xa82b5) = false.
Proof.
  apply (small_magic_value_rejects_every_state 0xa82b5
           (Part000.puzzleStateToCheckTable ∅)).
  lia.
Defined.

(** ** What a flip does, and where *)

Lemma verdict_after_flip (s : State) (column row : Z) :
  0 ≤ column < 5 → 0 ≤ row < 5 →
  Part000.isPuzzleSolvable (toggle_all (affected_ids 5 5 column row) s)
  = Part000.isPuzzleSolvable s
  ∧ Part001.isPuzzleSolvable (toggle_all (affected_ids 5 5 column row) s)
    = Part001.isPuzzleSolvable s.
Proof.
  intros Hc Hr. rewrite !isPuzzleSolvable_000, !isPuzzleSolvable_001.
  by rewrite !overlap_flip by (done || lia).
Qed.

(** X7. On the 5x5 board an in-bounds flip leaves the verdict of both oracles
    as it was: a solvable state stays solvable and an unsolvable one stays
    unsolvable. *)
Theorem flipLogic_keeps_the_oracle_verdict (state : State) (column row : Z) :
  0 ≤ column < 5 → 0 ≤ row < 5 →
  ∃ next, Part000.flipLogic state column row = Some next
    ∧ Part000.isPuzzleSolvable next = Part000.isPuzzleSolvable state
    ∧ Part001.isPuzzleSolvable next = Part001.isPuzzleSolvable state.
Proof.
  intros Hc Hr. eexists. split; [apply flipLogic_uniform|].
  by apply verdict_after_flip.
Qed.

Lemma flipLogic_keeps_the_oracle_verdict_witness :
  ∃ next, Part000.flipLogic {[ "0_0"%string := true ]} 3 4 = Some next
    ∧ Part000.isPuzzleSolvable next
      = Part000.isPuzzleSolvable {[ "0_0"%string := true ]}
    ∧ Part001.isPuzzleSolvable next
      = Part001.isPuzzleSolvable {[ "0_0"%string := true ]}.
Proof.
  apply (flipLogic_keeps_the_oracle_verdict {[ "0_0"%string := true ]} 3 4); lia.
Defined.

(** X8. An in-bounds flip returns a state in which every cell of the click's
    neighbour set holds the negation of what it read before, on the 5x5 board
    and on the 4x4 one; the set has 5 cells, less one for each border the
    click lies on. *)
Theorem flipLogic_negates_the_neighbourhood (state : State) (column row : Z) :
  (0 ≤ column < 5 → 0 ≤ row < 5 →
   negates Part000.flipLogic (neighbour_ids 5 5 column row) state column row
   ∧ Z.of_nat (length (neighbour_ids 5 5 column row))
     = 5 - Z.b2z (column =? 0) - Z.b2z (column =? 4)
         - Z.b2z (row =? 0) - Z.b2z (row =? 4))
  ∧ (0 ≤ column < 4 → 0 ≤ row < 4 →
     negates App4.flipLogic (neighbour_ids 4 4 column row) state column row
     ∧ Z.of_nat (length (neighbour_ids 4 4 column row))
       = 5 - Z.b2z (column =? 0) - Z.b2z (column =? 3)
           - Z.b2z (row =? 0) - Z.b2z (row =? 3)).
Proof.
  split; intros Hc Hr; (split; [|split_click Hc Hr; reflexivity]).
  - eexists. split; [apply flipLogic_uniform|].
    intros id Hid. rewrite affected_ids5_neighbours by done.
    rewrite lookup_toggle_all_NoDup by (by apply neighbour_ids5_NoDup).
    by rewrite bool_decide_eq_true_2.
  - eexists. split; [apply flipLogic_app4|].
    intros id Hid.
    pose proof (affected_ids4_neighbours _ _ Hc Hr) as Hperm.
    rewrite lookup_toggle_all_NoDup
      by (rewrite Hperm; by apply neighbour_ids4_NoDup).
    rewrite bool_decide_eq_true_2; [done|by rewrite Hperm].
Qed.

Lemma flipLogic_negates_the_neighbourhood_witness :
  (negates Part000.flipLogic (neighbour_ids 5 5 0 2) {[ "0_2"%string := true ]} 0 2
   ∧ Z.of_nat (length (neighbour_ids 5 5 0 2))
     = 5 - Z.b2z (0 =? 0) - Z.b2z (0 =? 4) - Z.b2z (2 =? 0) - Z.b2z (2 =? 4))
  ∧ (negates App4.flipLogic (neighbour_ids 4 4 3 3) {[ "0_2"%string := true ]} 3 3
     ∧ Z.of_nat (length (neighbour_ids 4 4 3 3))
       = 5 - Z.b2z (3 =? 0) - Z.b2z (3 =? 3) - Z.b2z (3 =? 0) - Z.b2z (3 =? 3)).
Proof.
  split.
  - apply (flipLogic_negates_the_neighbourhood {[ "0_2"%string := true ]} 0 2); lia.
  - apply (flipLogic_negates_the_neighbourhood {[ "0_2"%string := true ]} 3 3); lia.
Defined.

Lemma isOutOfBounds_spec rowCount colCount column row dx dy :
  Uniform.isOutOfBounds rowCount colCount column row (dx, dy) = true
  ↔ 0 ≤ column + dx < colCount ∧ 0 ≤ row + dy < rowCount.
Proof.
  unfold Uniform.isOutOfBounds.
  rewrite negb_true_iff, !orb_false_iff, !Z.ltb_ge, !Z.geb_leb, !Z.leb_gt. lia.
Qed.

Lemma affected_ids_on_board rowCount colCount column row id :
  id ∈ affected_ids rowCount colCount column row → board_id rowCount colCount id.
Proof.
  unfold affected_ids, ids_of. intros Hid.
  apply list_elem_of_fmap in Hid as ([dx dy] & -> & Hd).
  apply list_elem_of_In, List.filter_In in Hd as [_ Hin].
  apply isOutOfBounds_spec in Hin.
  exists (column + dx), (row + dy). split; [exact Hin|reflexivity].
Qed.

Lemma toggle_all_keys ids (s : State) k :
  is_Some (toggle_all ids s !! k) ↔ is_Some (s !! k) ∨ k ∈ ids.
Proof.
  revert s. induction ids as [|id ids IH]; intros s.
  - simpl. rewrite elem_of_nil. tauto.
  - change (toggle_all (id :: ids) s) with (toggle_all ids (toggle id s)).
    rewrite IH, elem_of_cons. unfold toggle.
    destruct (decide (k = id)) as [->|Hne].
    + rewrite lookup_insert_eq. split; [intros _; right; by left|eauto].
    + rewrite lookup_insert_ne by done. tauto.
Qed.

Lemma keys_on_board_empty rowCount colCount : keys_on_board rowCount colCount ∅.
Proof. intros id [x Hx]. by rewrite lookup_empty in Hx. Qed.

Lemma keys_on_board_flip rowCount colCount (s : State) (column row : Z) :
  keys_on_board rowCount colCount s →
  keys_on_board rowCount colCount
    (toggle_all (affected_ids rowCount colCount column row) s).
Proof.
  intros Hkeys id [Hold|Hnew]%toggle_all_keys.
  - by apply Hkeys.
  - by eapply affected_ids_on_board.
Qed.

(** X9. The flip of the 5x5 revisions never writes a key that names no cell
    of the board, wherever the click lands (any safe integers, on or off the
    board): if every key of the state names a cell of the board, so does
    every key of the state returned. *)
Theorem flipLogic_keeps_keys_on_board (rowCount colCount : Z) (state : State)
    (column row : Z) :
  safe_integer column → safe_integer row →
  keys_on_board rowCount colCount state →
  ∃ next, Uniform.flipLogic rowCount colCount state column row = Some next
          ∧ keys_on_board rowCount colCount next.
Proof.
  intros _ _ Hkeys. eexists. split; [apply flipLogic_uniform|].
  by apply keys_on_board_flip.
Qed.

Lemma flipLogic_keeps_keys_on_board_witness :
  ∃ next, Uniform.flipLogic 5 5 ∅ (-1) 5 = Some next ∧ keys_on_board 5 5 next.
Proof.
  apply (flipLogic_keeps_keys_on_board 5 5 ∅ (-1) 5);
    [unfold safe_integer; lia.. |].
  intros id [x Hx]. rewrite lookup_empty in Hx. discriminate.
Defined.

Lemma isOutOfBounds_far rowCount colCount column row dx dy :
  column < -1 ∨ colCount < column ∨ row < -1 ∨ rowCount < row →
  -1 ≤ dx ≤ 1 → -1 ≤ dy ≤ 1 →
  Uniform.isOutOfBounds rowCount colCount column row (dx, dy) = false.
Proof.
  intros Hfar Hdx Hdy. apply not_true_iff_false.
  rewrite isOutOfBounds_spec. lia.
Qed.

(** X10. A click at safe integers more than one cell away from the board
    (column below -1 or above [colCount], or row below -1 or above
    [rowCount]) makes the flip of
    the 5x5 revisions return the state unchanged. *)
Theorem flipLogic_far_click_is_noop (rowCount colCount : Z) (state : State)
    (column row : Z) :
  safe_integer column → safe_integer row →
  column < -1 ∨ colCount < column ∨ row < -1 ∨ rowCount < row →
  Uniform.flipLogic rowCount colCount state column row = Some state.
Proof.
  intros _ _ Hfar. rewrite flipLogic_uniform. unfold affected_ids.
  cbn [List.filter]. rewrite !isOutOfBounds_far by (done || lia). reflexivity.
Qed.

Lemma flipLogic_far_click_is_noop_witness :
  Uniform.flipLogic 5 5 {[ "1_1"%string := true ]} 2 7
  = Some {[ "1_1"%string := true ]}.
Proof.
  apply (flipLogic_far_click_is_noop 5 5 {[ "1_1"%string := true ]} 2 7);
    unfold safe_integer; lia.
Defined.

Lemma app4_affected_head column row :
  ∃ rest, App4.getAffectedCoordinates column row = (column, row) :: (0, 0) :: rest.
Proof. unfold App4.getAffectedCoordinates. repeat case_match; simpl; eauto. Qed.

(** X11. The 4x4 revision has no bounds filter: for a click at safe integers
    that is not on the board its flip still writes the key of the clicked cell, a key that
    names no cell of the board; the uniform policy at the same size leaves
    that key as it was. *)
Theorem off_board_click_4x4_writes_off_board_key (state : State) (column row : Z) :
  safe_integer column → safe_integer row →
  ¬ on_board 4 4 (column, row) →
  (∃ next, App4.flipLogic state column row = Some next
           ∧ is_Some (next !! Uniform.getPuzzleCellIdFromCooordinate column row)
           ∧ ¬ board_id 4 4 (Uniform.getPuzzleCellIdFromCooordinate column row))
  ∧ (∃ next, Uniform.flipLogic 4 4 state column row = Some next
             ∧ next !! Uniform.getPuzzleCellIdFromCooordinate column row
               = state !! Uniform.getPuzzleCellIdFromCooordinate column row).
Proof.
  intros _ _ Hoff.
  assert (¬ board_id 4 4 (Uniform.getPuzzleCellIdFromCooordinate column row))
    as Hid.
  { intros (c & r & Hon & Heq).
    apply (cell_id_inj (column, row) (c, r)) in Heq. by injection Heq as -> ->. }
  split.
  - eexists. split; [apply flipLogic_app4|]. split; [|done].
    apply toggle_all_keys. right. unfold affected_ids4.
    destruct (app4_affected_head column row) as [rest ->]. simpl.
    rewrite !Z.add_0_r. by left.
  - eexists. split; [apply flipLogic_uniform|].
    apply lookup_toggle_all_notin. intros Hin.
    by apply affected_ids_on_board in Hin.
Qed.

Lemma off_board_click_4x4_writes_off_board_key_witness :
  (∃ next, App4.flipLogic ∅ 4 0 = Some next
           ∧ is_Some (next !! Uniform.getPuzzleCellIdFromCooordinate 4 0)
           ∧ ¬ board_id 4 4 (Uniform.getPuzzleCellIdFromCooordinate 4 0))
  ∧ (∃ next, Uniform.flipLogic 4 4 ∅ 4 0 = Some next
             ∧ next !! Uniform.getPuzzleCellIdFromCooordinate 4 0
               = (∅ : State) !! Uniform.getPuzzleCellIdFromCooordinate 4 0).
Proof.
  apply (off_board_click_4x4_writes_off_board_key ∅ 4 0);
    [unfold safe_integer; lia.. |].
  unfold on_board. simpl. lia.
Defined.

Lemma toggle_comm id1 id2 (s : State) :
  toggle id1 (toggle id2 s) = toggle id2 (toggle id1 s).
Proof.
  destruct (decide (id1 = id2)) as [->|Hne]; [done|].
  unfold toggle at 1 3. rewrite !truthy_toggle.
  rewrite !bool_decide_eq_false_2 by done. simpl.
  unfold toggle. by apply insert_insert_ne.
Qed.

Lemma toggle_toggle_all id ids (s : State) :
  toggle id (toggle_all ids s) = toggle_all ids (toggle id s).
Proof.
  revert s. induction ids as [|id' ids IH]; intros s; [done|].
  change (toggle_all (id' :: ids) ?t) with (toggle_all ids (toggle id' t)).
  by rewrite IH, toggle_comm.
Qed.

Lemma toggle_all_comm ids1 ids2 (s : State) :
  toggle_all ids1 (toggle_all ids2 s) = toggle_all ids2 (toggle_all ids1 s).
Proof.
  revert s. induction ids1 as [|id ids1 IH]; intros s; [done|].
  change (toggle_all (id :: ids1) ?t) with (toggle_all ids1 (toggle id t)).
  by rewrite <- IH, toggle_toggle_all.
Qed.

(** X12. Two flips commute: clicking one cell and then another returns the
    same state object as clicking them in the other order, for any safe
    integer coordinates, under the uniform policy at any board size and in
    the 4x4 revision. *)
Theorem flips_commute (state : State) (column1 row1 column2 row2 : Z) :
  safe_integer column1 → safe_integer row1 →
  safe_integer column2 → safe_integer row2 →
  (∀ rowCount colCount,
     (Uniform.flipLogic rowCount colCount state column1 row1
        ≫= fun s => Uniform.flipLogic rowCount colCount s column2 row2)
     = (Uniform.flipLogic rowCount colCount state column2 row2
          ≫= fun s => Uniform.flipLogic rowCount colCount s column1 row1))
  ∧ (App4.flipLogic state column1 row1 ≫= fun s => App4.flipLogic s column2 row2)
    = (App4.flipLogic state column2 row2 ≫= fun s => App4.flipLogic s column1 row1).
Proof.
  intros _ _ _ _. split; [intros rowCount colCount|];
    rewrite ?flipLogic_uniform, ?flipLogic_app4; simpl;
    rewrite ?flipLogic_uniform, ?flipLogic_app4; f_equal; apply toggle_all_comm.
Qed.

Lemma flips_commute_witness :
  (∀ rowCount colCount,
     (Uniform.flipLogic rowCount colCount {[ "1_1"%string := true ]} 0 0
        ≫= fun s => Uniform.flipLogic rowCount colCount s 1 0)
     = (Uniform.flipLogic rowCount colCount {[ "1_1"%string := true ]} 1 0
          ≫= fun s => Uniform.flipLogic rowCount colCount s 0 0))
  ∧ (App4.flipLogic {[ "1_1"%string := true ]} 0 0 ≫= fun s => App4.flipLogic s 1 0)
    = (App4.flipLogic {[ "1_1"%string := true ]} 1 0
         ≫= fun s => App4.flipLogic s 0 0).
Proof.
  apply (flips_commute {[ "1_1"%string := true ]} 0 0 1 0);
    unfold safe_integer; lia.
Defined.

(** ** The editor's single-cell edit *)

Lemma isOutOfBounds_on_board rowCount colCount column row :
  Uniform.isOutOfBounds rowCount colCount column row (0, 0)
  = bool_decide (on_board rowCount colCount (column, row)).
Proof.
  apply eq_true_iff_eq. rewrite isOutOfBounds_spec, bool_decide_eq_true.
  unfold on_board. simpl. by rewrite !Z.add_0_r.
Qed.

Lemma flip_single_value (state : State) (column row : Z) :
  Part000.applyAffectedCoordinatesToState [(column, row); (0, 0)] state
  = Some (if bool_decide (on_board 5 5 (column, row))
          then toggle (Part000.getPuzzleCellIdFromCooordinate column row) state
          else state).
Proof.
  unfold Part000.applyAffectedCoordinatesToState,
    Uniform.applyAffectedCoordinatesToState. cbn [List.filter].
  rewrite isOutOfBounds_on_board.
  change Part000.rowCount with 5. change Part000.colCount with 5.
  destruct (bool_decide (on_board 5 5 (column, row))); [|reflexivity].
  simpl. unfold toggle, Part000.getPuzzleCellIdFromCooordinate.
  by rewrite !Z.add_0_r.
Qed.

Lemma reduce_flip_single (state : State) (cell : Z * Z) :
  Reducer.Part000.puzzleReducer state (flipSingle cell)
  = Reducer.VState <$>
      Part000.applyAffectedCoordinatesToState [(cell.1, cell.2); (0, 0)] state.
Proof. reflexivity. Qed.

(** X13. The [FLIP_SINGLE] action of the editor revision, at safe integer
    coordinates, toggles the targeted cell and nothing else when the cell is
    on the board, and returns the state unchanged when it is not. *)
Theorem flip_single_toggles_one_cell_or_nothing (state : State) (column row : Z) :
  safe_integer column → safe_integer row →
  let id := Part000.getPuzzleCellIdFromCooordinate column row in
  Reducer.Part000.puzzleReducer state (flipSingle (column, row))
  = Some (Reducer.VState
            (if bool_decide (on_board 5 5 (column, row))
             then <[id := negb (JS.truthy_at state id)]> state
             else state)).
Proof. intros _ _. cbv zeta. by rewrite reduce_flip_single, flip_single_value. Qed.

Lemma flip_single_toggles_one_cell_or_nothing_witness :
  let id := Part000.getPuzzleCellIdFromCooordinate 5 2 in
  Reducer.Part000.puzzleReducer {[ "2_2"%string := true ]} (flipSingle (5, 2))
  = Some (Reducer.VState
            (if bool_decide (on_board 5 5 (5, 2))
             then <[id := negb (JS.truthy_at {[ "2_2"%string := true ]} id)]>
                    {[ "2_2"%string := true ]}
             else {[ "2_2"%string := true ]})).
Proof.
  apply (flip_single_toggles_one_cell_or_nothing {[ "2_2"%string := true ]} 5 2);
    unfold safe_integer; lia.
Defined.

Lemma single_cell_overlap (k : nat) (column row : Z) :
  (k < 2)%nat → 0 ≤ column < 5 → 0 ≤ row < 5 →
  xorsum (fun i => odd_occ (cell_of_index i)
                     [Part000.getPuzzleCellIdFromCooordinate column row]
                   && magic_bit k i) 25
  = magic_bit k (Z.to_nat (row * 5 + column)).
Proof.
  intros Hk Hc Hr. destruct k as [|[|k]]; [| |lia];
    split_click Hc Hr; vm_compute; reflexivity.
Qed.

Lemma overlap_toggle (k : nat) (s : State) (column row : Z) :
  (k < 2)%nat → 0 ≤ column < 5 → 0 ≤ row < 5 →
  overlap k (toggle (Part000.getPuzzleCellIdFromCooordinate column row) s)
  = xorb (magic_bit k (Z.to_nat (row * 5 + column))) (overlap k s).
Proof.
  intros Hk Hc Hr. unfold overlap.
  rewrite (xorsum_ext _
             (fun i => xorb (odd_occ (cell_of_index i)
                               [Part000.getPuzzleCellIdFromCooordinate column row])
                            (JS.truthy_at s (cell_of_index i))
                       && magic_bit k i)).
  - by rewrite xorsum_xorb, single_cell_overlap.
  - intros i _. rewrite truthy_toggle. simpl. by rewrite xorb_false_r.
Qed.

(** X14. Editing one cell of a solvable 5x5 state keeps it solvable exactly
    when the cell is one of (1,1), (3,1), (2,2), (1,3), (3,3), the cells whose
    bit is 0 in both magic tables; editing any other cell makes the oracle
    answer [false]. *)
Theorem flip_single_verdict (state : State) (column row : Z) :
  Part000.isPuzzleSolvable state = true →
  0 ≤ column < 5 → 0 ≤ row < 5 →
  ∃ next,
    Reducer.Part000.puzzleReducer state (flipSingle (column, row))
    = Some (Reducer.VState next)
    ∧ Part000.isPuzzleSolvable next
      = bool_decide ((column, row) ∈ unchecked_cells).
Proof.
  intros Hsolv Hc Hr. eexists. split.
  - by rewrite reduce_flip_single, flip_single_value.
  - rewrite bool_decide_eq_true_2 by (unfold on_board; simpl; lia).
    rewrite isPuzzleSolvable_000 in *.
    apply andb_true_iff in Hsolv as [H0 H1].
    apply negb_true_iff in H0, H1.
    rewrite !overlap_toggle, H0, H1 by (done || lia).
    split_click Hc Hr; vm_compute; reflexivity.
Qed.

Lemma flip_single_verdict_witness :
  ∃ next,
    Reducer.Part000.puzzleReducer ∅ (flipSingle (0, 0)) = Some (Reducer.VState next)
    ∧ Part000.isPuzzleSolvable next = bool_decide ((0, 0) ∈ unchecked_cells).
Proof.
  apply (flip_single_verdict ∅ 0 0); [vm_compute; reflexivity | lia | lia].
Defined.

Lemma run_flip_single (cells : list (Z * Z)) :
  ∀ state : State,
    Forall (on_board 5 5) cells →
    runActions Reducer.Part000.puzzleReducer state (map flipSingle cells)
    = Some (toggle_all
              (map (fun cell => Uniform.getPuzzleCellIdFromCooordinate cell.1 cell.2)
                   cells) state).
Proof.
  induction cells as [|[c r] cells IH]; intros state Hall; [reflexivity|].
  apply Forall_cons in Hall as [Hon Hall]. cbn [map runActions].
  rewrite reduce_flip_single, flip_single_value, bool_decide_eq_true_2 by done.
  simpl. by rewrite IH.
Qed.

Lemma odd_occ_NoDup (cells : list (Z * Z)) (cell : Z * Z) :
  NoDup cells →
  odd_occ (Uniform.getPuzzleCellIdFromCooordinate cell.1 cell.2)
    (map (fun cell => Uniform.getPuzzleCellIdFromCooordinate cell.1 cell.2) cells)
  = bool_decide (cell ∈ cells).
Proof.
  induction cells as [|cell' cells IH]; intros Hnd; [reflexivity|].
  apply NoDup_cons in Hnd as [Hnotin Hnd]. simpl. rewrite IH by done.
  destruct (decide (cell = cell')) as [->|Hne].
  - rewrite (bool_decide_eq_true_2 (_ = _)) by done.
    rewrite (bool_decide_eq_true_2 (cell' ∈ cell' :: cells)) by left.
    by rewrite (bool_decide_eq_false_2 (cell' ∈ cells)).
  - rewrite (bool_decide_eq_false_2 (_ = _)).
    + simpl. apply bool_decide_ext. rewrite elem_of_cons.
      split; [by right | intros [?|?]; [congruence|done]].
    + intros Heq. by apply cell_id_inj in Heq.
Qed.

Lemma unlit_on_empty_board (cell : Z * Z) :
  on_board 5 5 cell →
  JS.truthy_at ∅ (Uniform.getPuzzleCellIdFromCooordinate cell.1 cell.2) = false.
Proof.
  destruct cell as [c r]. intros [Hc Hr]. simpl in *.
  split_click Hc Hr; reflexivity.
Qed.

(** X15. The editor can author any pattern: from the empty state, one
    [FLIP_SINGLE] for each cell of a duplicate-free list of cells of the 5x5
    board yields a state in which a cell of the board reads lit exactly when
    it is in the list. *)
Theorem editor_authors_any_pattern (cells : list (Z * Z)) :
  Forall (on_board 5 5) cells → NoDup cells →
  ∃ final,
    runActions Reducer.Part000.puzzleReducer ∅ (map flipSingle cells) = Some final
    ∧ ∀ cell, on_board 5 5 cell →
        JS.truthy_at final (Part000.getPuzzleCellIdFromCooordinate cell.1 cell.2)
        = bool_decide (cell ∈ cells).
Proof.
  intros Hall Hnd. eexists. split; [by apply run_flip_single|].
  intros cell Hon. unfold Part000.getPuzzleCellIdFromCooordinate.
  rewrite truthy_toggle_all, odd_occ_NoDup, unlit_on_empty_board by done.
  apply xorb_false_r.
Qed.

Lemma editor_authors_any_pattern_witness :
  ∃ final,
    runActions Reducer.Part000.puzzleReducer ∅ (map flipSingle [(0, 0); (4, 2)])
    = Some final
    ∧ ∀ cell, on_board 5 5 cell →
        JS.truthy_at final (Part000.getPuzzleCellIdFromCooordinate cell.1 cell.2)
        = bool_decide (cell ∈ [(0, 0); (4, 2)]).
Proof.
  apply (editor_authors_any_pattern [(0, 0); (4, 2)]).
  - repeat (apply Forall_cons_2; [unfold on_board; simpl; lia|]).
    apply Forall_nil_2.
  - by_evaluation.
Defined.

(** ** Playing *)

Lemma play_step_001 (state : State) (action : Reducer.Action) :
  play_action action →
  Part001.isPuzzleSolvable state = true → keys_on_board 5 5 state →
  ∃ next, Reducer.Part001.puzzleReducer state action = Some (Reducer.VState next)
          ∧ Part001.isPuzzleSolvable next = true ∧ keys_on_board 5 5 next.
Proof.
  intros Hplay Hsolv Hkeys. destruct action as [type column row].
  destruct Hplay as [Htype|[Htype [Hc Hr]]]; simpl in *; subst type.
  - exists ∅. split; [reflexivity|].
    split; [by vm_compute | apply keys_on_board_empty].
  - exists (toggle_all (affected_ids 5 5 column row) state).
    split; [|split].
    + change (Reducer.Part001.puzzleReducer state _)
        with (Reducer.VState <$> Uniform.flipLogic 5 5 state column row).
      by rewrite flipLogic_uniform.
    + destruct (verdict_after_flip state column row Hc Hr) as [_ ->]. done.
    + by apply keys_on_board_flip.
Qed.

Lemma play_run_001 (actions : list Reducer.Action) :
  ∀ state : State,
    Forall play_action actions →
    Part001.isPuzzleSolvable state = true → keys_on_board 5 5 state →
    ∃ final, runActions Reducer.Part001.puzzleReducer state actions = Some final
             ∧ Part001.isPuzzleSolvable final = true ∧ keys_on_board 5 5 final.
Proof.
  induction actions as [|action actions IH]; intros state Hall Hsolv Hkeys.
  - exists state. done.
  - apply Forall_cons in Hall as [Hplay Hall].
    destruct (play_step_001 state action Hplay Hsolv Hkeys)
      as (next & Hstep & Hsolv' & Hkeys').
    destruct (IH next Hall Hsolv' Hkeys') as (final & Hrun & Hfinal).
    exists final. simpl. by rewrite Hstep.
Qed.

(** X16. Every state the reducer of [part_001] reaches from the initial state
    [{}] through resets and flips of cells of the board is accepted by both
    oracles, and all its keys name cells of the board; no such action makes
    the reducer throw. *)
Theorem play_reaches_only_solvable_states (actions : list Reducer.Action) :
  Forall play_action actions →
  ∃ final, runActions Reducer.Part001.puzzleReducer ∅ actions = Some final
           ∧ Part001.isPuzzleSolvable final = true
           ∧ Part000.isPuzzleSolvable final = true
           ∧ keys_on_board 5 5 final.
Proof.
  intros Hall.
  destruct (play_run_001 actions ∅ Hall) as (final & Hrun & Hsolv & Hkeys);
    [by vm_compute | apply keys_on_board_empty |].
  exists final. repeat split; try done.
  by rewrite isPuzzleSolvable_000, <- isPuzzleSolvable_001.
Qed.

Lemma play_reaches_only_solvable_states_witness :
  ∃ final,
    runActions Reducer.Part001.puzzleReducer ∅
      [ {| Reducer.type := "FLIP"; Reducer.column := 0; Reducer.row := 0 |};
        {| Reducer.type := "FLIP"; Reducer.column := 2; Reducer.row := 3 |};
        {| Reducer.type := "RESET_PUZZLE"; Reducer.column := 0; Reducer.row := 0 |};
        {| Reducer.type := "FLIP"; Reducer.column := 4; Reducer.row := 4 |} ]
    = Some final
    ∧ Part001.isPuzzleSolvable final = true
    ∧ Part000.isPuzzleSolvable final = true
    ∧ keys_on_board 5 5 final.
Proof.
  apply (play_reaches_only_solvable_states
           [ {| Reducer.type := "FLIP"; Reducer.column := 0; Reducer.row := 0 |};
             {| Reducer.type := "FLIP"; Reducer.column := 2; Reducer.row := 3 |};
             {| Reducer.type := "RESET_PUZZLE"; Reducer.column := 0; Reducer.row := 0 |};
             {| Reducer.type := "FLIP"; Reducer.column := 4; Reducer.row := 4 |} ]).
  repeat (apply Forall_cons_2;
          [first [ left; reflexivity
                 | right; split; [reflexivity | unfold on_board; simpl; lia] ]|]).
  apply Forall_nil_2.
Defined.

(** ** What the views read *)

(** X17. The descriptors, the win check and both oracles read a state only
    through which cells are lit: two states in which every identifier reads
    the same (a missing key and a key holding [false] alike) get the same
    descriptors, the same win check and the same verdicts. *)
Theorem views_read_lit_cells_only (s1 s2 : State) :
  same_cells s1 s2 →
  Part001.calculatePuzzleCellsFromState s1 = Part001.calculatePuzzleCellsFromState s2
  ∧ Part001.winCheck s1 = Part001.winCheck s2
  ∧ Part000.isPuzzleSolvable s1 = Part000.isPuzzleSolvable s2
  ∧ Part001.isPuzzleSolvable s1 = Part001.isPuzzleSolvable s2.
Proof.
  intros Hsame.
  assert (Part001.calculatePuzzleCellsFromState s1
          = Part001.calculatePuzzleCellsFromState s2) as Hcells.
  { unfold Part001.calculatePuzzleCellsFromState,
      Uniform.calculatePuzzleCellsFromState.
    apply map_ext. intros i.
    destruct (Uniform.getColumnRowFromIndex Part001.colCount i) as [column row].
    by rewrite Hsame. }
  split; [done|]. split.
  - unfold Part001.winCheck, Uniform.winCheck.
    unfold Part001.calculatePuzzleCellsFromState in Hcells. by rewrite Hcells.
  - rewrite !isPuzzleSolvable_000, !isPuzzleSolvable_001.
    assert (∀ k, overlap k s1 = overlap k s2) as Hoverlap.
    { intros k. unfold overlap. apply xorsum_ext. intros i _. by rewrite Hsame. }
    by rewrite !Hoverlap.
Qed.

Lemma views_read_lit_cells_only_witness :
  Part001.calculatePuzzleCellsFromState ∅
  = Part001.calculatePuzzleCellsFromState {[ "0_0"%string := false ]}
  ∧ Part001.winCheck ∅ = Part001.winCheck {[ "0_0"%string := false ]}
  ∧ Part000.isPuzzleSolvable ∅
    = Part000.isPuzzleSolvable {[ "0_0"%string := false ]}
  ∧ Part001.isPuzzleSolvable ∅
    = Part001.isPuzzleSolvable {[ "0_0"%string := false ]}.
Proof.
  apply (views_read_lit_cells_only ∅ {[ "0_0"%string := false ]}).
  intros id. unfold JS.truthy_at.
  destruct (decide (id = "0_0"%string)) as [->|Hne]; [reflexivity|].
  rewrite lookup_empty, lookup_singleton_ne by done. reflexivity.
Defined.

Lemma cells_lookup (state : State) (i : nat) :
  (i < 25)%nat →
  Part001.calculatePuzzleCellsFromState state !! i
  = Some
      (let column := Z.of_nat i `mod` 5 in
       let row := Z.of_nat i `div` 5 in
       let id := Part001.getPuzzleCellIdFromCooordinate column row in
       {| Uniform.cell_id := id; Uniform.cell_column := column;
          Uniform.cell_row := row;
          Uniform.cell_color :=
            if JS.truthy_at state id then "seagreen"%string else "black"%string;
          Uniform.cell_lit := JS.truthy_at state id |}).
Proof.
  intros Hi. unfold Part001.calculatePuzzleCellsFromState,
    Uniform.calculatePuzzleCellsFromState.
  change (Uniform.numCells Part001.rowCount Part001.colCount) with 25.
  rewrite list_lookup_fmap, lookup_seqZ_lt by lia. cbv zeta.
  do 25 (destruct i as [|i]; [simpl; by rewrite negb_involutive|]). lia.
Qed.

(** X18. For every state [calculatePuzzleCellsFromState] of the 5x5 board
    returns 25 descriptors with pairwise distinct identifiers; the descriptor
    at index [i] is that of column [i mod 5] and row [i div 5], its [lit] flag
    is the truthiness the state has at its identifier, and its colour is
    [seagreen] exactly when it is lit. *)
Theorem descriptors_follow_the_grid (state : State) :
  length (Part001.calculatePuzzleCellsFromState state) = 25%nat
  ∧ NoDup (map Uniform.cell_id (Part001.calculatePuzzleCellsFromState state))
  ∧ ∀ i : nat, (i < 25)%nat →
      ∃ cell, Part001.calculatePuzzleCellsFromState state !! i = Some cell
        ∧ Uniform.cell_column cell = Z.of_nat i `mod` 5
        ∧ Uniform.cell_row cell = Z.of_nat i `div` 5
        ∧ Uniform.cell_id cell
          = Part001.getPuzzleCellIdFromCooordinate
              (Uniform.cell_column cell) (Uniform.cell_row cell)
        ∧ Uniform.cell_lit cell = JS.truthy_at state (Uniform.cell_id cell)
        ∧ Uniform.cell_color cell
          = (if Uniform.cell_lit cell then "seagreen" else "black")%string.
Proof.
  split; [reflexivity|]. split.
  - unfold Part001.calculatePuzzleCellsFromState,
      Uniform.calculatePuzzleCellsFromState.
    rewrite map_map. by_evaluation.
  - intros i Hi. eexists. split; [by apply cells_lookup|]. done.
Qed.

(** ** The 4x4 view *)

Lemma cells4_lookup (state : State) (i : nat) (cell : App4View.Cell) :
  App4View.calculatePuzzleCellsFromState state !! i = Some cell →
  (i < 16)%nat
  ∧ App4View.column cell = Z.of_nat i `mod` 4
  ∧ App4View.row cell = Z.of_nat i `div` 4
  ∧ App4View.x cell = 4 + 127 * App4View.column cell
  ∧ App4View.y cell = 4 + 127 * App4View.row cell
  ∧ App4View.width cell = 123 ∧ App4View.height cell = 123
  ∧ App4View.id cell
    = Uniform.getPuzzleCellIdFromCooordinate (App4View.column cell) (App4View.row cell)
  ∧ App4View.lit cell = JS.truthy_at state (App4View.id cell).
Proof.
  intros Hcell.
  assert (i < 16)%nat as Hi.
  { apply lookup_lt_Some in Hcell.
    unfold App4View.calculatePuzzleCellsFromState in Hcell.
    by rewrite length_map, length_seqZ in Hcell. }
  split; [done|].
  do 16 (destruct i as [|i];
         [injection Hcell as <-; cbn; rewrite negb_involutive; done|]).
  lia.
Qed.

(** X19. The rectangles that [calculatePuzzleCellsFromState] of the 4x4
    revision computes are 123 by 123, lie inside the 512 by 512 canvas, and
    those of two different indices do not overlap: a point of the canvas
    belongs to at most one cell. *)
Theorem rectangles_4x4_are_apart (state : State) (i j : nat)
    (a b : App4View.Cell) :
  App4View.calculatePuzzleCellsFromState state !! i = Some a →
  App4View.calculatePuzzleCellsFromState state !! j = Some b →
  inside_canvas a
  ∧ (App4View.width a = 123 ∧ App4View.height a = 123)
  ∧ (i ≠ j → apart a b).
Proof.
  intros Ha Hb.
  destruct (cells4_lookup _ _ _ Ha)
    as (Hi & Hca & Hra & Hxa & Hya & Hwa & Hha & _).
  destruct (cells4_lookup _ _ _ Hb)
    as (Hj & Hcb & Hrb & Hxb & Hyb & Hwb & Hhb & _).
  unfold apart, inside_canvas, App4View.WIDTH, App4View.HEIGHT.
  rewrite Hxa, Hya, Hwa, Hha, Hxb, Hyb, Hwb, Hhb, Hca, Hra, Hcb, Hrb.
  repeat split; Z.div_mod_to_equations; lia.
Qed.

Lemma rectangles_4x4_are_apart_witness :
  ∃ a b,
    App4View.calculatePuzzleCellsFromState ∅ !! 5%nat = Some a
    ∧ App4View.calculatePuzzleCellsFromState ∅ !! 6%nat = Some b
    ∧ inside_canvas a
    ∧ (App4View.width a = 123 ∧ App4View.height a = 123)
    ∧ (5%nat ≠ 6%nat → apart a b).
Proof.
  eexists _, _. split; [reflexivity|]. split; [reflexivity|].
  apply (rectangles_4x4_are_apart ∅ 5 6); reflexivity.
Defined.

Lemma filter_lit_full (cells : list App4View.Cell) :
  Z.of_nat (length (List.filter App4View.lit cells)) = Z.of_nat (length cells)
  ↔ Forall (fun cell => App4View.lit cell = true) cells.
Proof. rewrite Nat2Z.inj_iff. apply filter_keeps_all. Qed.

(** X20. The win check of the 4x4 revision succeeds exactly when every one of
    the 16 cells of the board reads lit in the state. *)
Theorem win_check_4x4_iff_every_cell_lit (state : State) :
  App4View.winCheck state = true
  ↔ ∀ column row, 0 ≤ column < 4 → 0 ≤ row < 4 →
      JS.truthy_at state (Uniform.getPuzzleCellIdFromCooordinate column row) = true.
Proof.
  unfold App4View.winCheck. rewrite Z.eqb_eq.
  change App4.numCells
    with (Z.of_nat (length (App4View.calculatePuzzleCellsFromState state))).
  rewrite filter_lit_full, Forall_lookup. split.
  - intros Hall column row Hc Hr.
    destruct (lookup_lt_is_Some_2 (App4View.calculatePuzzleCellsFromState state)
                (Z.to_nat (row * 4 + column))) as [cell Hcell].
    { unfold App4View.calculatePuzzleCellsFromState.
      rewrite length_map, length_seqZ. change App4.numCells with 16. lia. }
    specialize (Hall _ _ Hcell).
    destruct (cells4_lookup _ _ _ Hcell)
      as (_ & Hcol & Hrow & _ & _ & _ & _ & Hid & Hlit).
    rewrite Z2Nat.id in Hcol, Hrow by lia.
    rewrite Hlit, Hid, Hcol, Hrow in Hall.
    replace ((row * 4 + column) `mod` 4) with column in Hall
      by (Z.div_mod_to_equations; lia).
    replace ((row * 4 + column) `div` 4) with row in Hall
      by (Z.div_mod_to_equations; lia).
    done.
  - intros Hall i cell Hcell.
    destruct (cells4_lookup _ _ _ Hcell)
      as (Hi & Hcol & Hrow & _ & _ & _ & _ & Hid & Hlit).
    rewrite Hlit, Hid. apply Hall; Z.div_mod_to_equations; lia.
Qed.

(** ** The 5x5 view as a transition system *)

Lemma effect_ok (v : View001.ViewState) :
  (View001.cleared v = true → Part001.winCheck (View001.puzzle v) = true) →
  Part001.isPuzzleSolvable (View001.puzzle v) = true →
  keys_on_board 5 5 (View001.puzzle v) →
  view_ok (View001.effect v).
Proof.
  intros Hcl Hsolv Hkeys. unfold view_ok, View001.effect.
  destruct (Part001.winCheck (View001.puzzle v)) eqn:Hwin; simpl.
  - by rewrite Hwin.
  - rewrite Hwin. repeat split; try done.
    destruct (View001.cleared v); [by discriminate Hcl|done].
Qed.

Lemma step_ok (v : View001.ViewState) (e : View001.Event) :
  view_ok v → ∃ v', View001.step v e = Some v' ∧ view_ok v'.
Proof.
  intros (Hcl & Hsolv & Hkeys).
  assert (view_ok (View001.effect v)) as Hstay.
  { apply effect_ok; [|done|done]. intros Hcleared. by rewrite <- Hcl. }
  unfold View001.step. destruct e as [index|]; cbn [View001.handle].
  - destruct (Part001.calculatePuzzleCellsFromState (View001.puzzle v) !! index)
      as [cell|] eqn:Hcell; [|by eexists].
    destruct (View001.cleared v) eqn:Hcleared; [by eexists|].
    assert (index < 25)%nat as Hidx by (by apply lookup_lt_Some in Hcell).
    rewrite cells_lookup in Hcell by done. injection Hcell as <-.
    cbn [Uniform.cell_column Uniform.cell_row].
    destruct (play_step_001 (View001.puzzle v)
                {| Reducer.type := "FLIP";
                   Reducer.column := Z.of_nat index `mod` 5;
                   Reducer.row := Z.of_nat index `div` 5 |})
      as (next & Hstep & Hsolv' & Hkeys'); [|done|done|].
    { right. split; [done|]. unfold on_board. cbn [Reducer.column Reducer.row fst snd].
      Z.div_mod_to_equations. lia. }
    unfold View001.dispatch. rewrite Hstep.
    eexists. split; [reflexivity|].
    apply effect_ok; cbn [View001.puzzle View001.cleared]; [|done|done].
    rewrite Hcleared. discriminate.
  - destruct (View001.cleared v) eqn:Hcleared; [|by eexists].
    eexists. split; [reflexivity|].
    apply effect_ok; cbn [View001.puzzle View001.cleared].
    + discriminate.
    + by vm_compute.
    + apply keys_on_board_empty.
Qed.

Lemma initial_ok : view_ok View001.initial.
Proof.
  apply effect_ok; simpl; [discriminate | by vm_compute | apply keys_on_board_empty].
Qed.

(** X21. Whatever sequence of cell clicks and Play Again clicks the 5x5 view
    of [part_001] receives from its first render, the flag [cleared] equals
    the win check of the current state (the overlay shows exactly when all 25
    cells are lit), the state is accepted by the oracle, and no handler
    throws. *)
Theorem overlay_shows_exactly_on_a_win (events : list View001.Event) :
  ∃ v, View001.run View001.initial events = Some v
       ∧ View001.cleared v = Part001.winCheck (View001.puzzle v)
       ∧ Part001.isPuzzleSolvable (View001.puzzle v) = true.
Proof.
  cut (∀ v0, view_ok v0 → ∃ v, View001.run v0 events = Some v ∧ view_ok v).
  { intros Hrun. destruct (Hrun _ initial_ok) as (v & Hv & Hcl & Hsolv & _). eauto. }
  induction events as [|e events IH]; intros v0 Hok.
  - exists v0. done.
  - destruct (step_ok v0 e Hok) as (v1 & Hstep & Hok1).
    destruct (IH v1 Hok1) as (v & Hrun & Hv).
    exists v. simpl. by rewrite Hstep.
Qed.

(** ** The oracle is exact *)

Lemma toggle_all_app ids1 ids2 (s : State) :
  toggle_all (ids1 ++ ids2) s = toggle_all ids2 (toggle_all ids1 s).
Proof. apply foldl_app. Qed.

Lemma odd_occ_app k ids1 ids2 :
  odd_occ k (ids1 ++ ids2) = xorb (odd_occ k ids1) (odd_occ k ids2).
Proof.
  induction ids1 as [|id ids1 IH]; simpl; [by destruct (odd_occ k ids2)|].
  rewrite IH. by destruct (bool_decide (k = id)), (odd_occ k ids1), (odd_occ k ids2).
Qed.

Lemma reduce_flipAt (state : State) (i : nat) :
  Reducer.Part001.puzzleReducer state (flipAt i)
  = Some (Reducer.VState (toggle_all (pattern_ids i) state)).
Proof.
  unfold flipAt, pattern_ids.
  destruct (Part000.getColumnRowFromIndex (Z.of_nat i)) as [column row].
  change (Reducer.Part001.puzzleReducer state _)
    with (Reducer.VState <$> Uniform.flipLogic 5 5 state column row).
  by rewrite flipLogic_uniform.
Qed.

Lemma run_clicks (clicks : list nat) :
  ∀ state : State,
    runActions Reducer.Part001.puzzleReducer state (map flipAt clicks)
    = Some (toggle_all (flat_map pattern_ids clicks) state).
Proof.
  induction clicks as [|i clicks IH]; intros state; [reflexivity|].
  cbn [map runActions flat_map].
  rewrite toggle_all_app, reduce_flipAt. apply IH.
Qed.

Lemma unit_clicks_in_range (j click : nat) :
  click ∈ nth j unit_clicks [] → (click < 25)%nat.
Proof.
  intros Hin.
  assert (forallb (fun l => forallb (fun c => c <? 25)%nat l) unit_clicks = true)
    as Hall by (by vm_compute).
  rewrite forallb_forall in Hall.
  destruct (Nat.lt_ge_cases j (length unit_clicks)) as [Hj|Hj].
  - specialize (Hall _ (nth_In unit_clicks [] Hj)).
    rewrite forallb_forall in Hall.
    apply Nat.ltb_lt, Hall. by apply list_elem_of_In.
  - rewrite nth_overflow in Hin by done. by apply elem_of_nil in Hin.
Qed.

Lemma flipAt_play (i : nat) : (i < 25)%nat → play_action (flipAt i).
Proof.
  intros Hi. do 25 (destruct i as [|i]; [right; vm_compute; intuition congruence|]).
  lia.
Qed.

Lemma clicks_for_play (state : State) :
  Forall play_action (map flipAt (clicks_for state)).
Proof.
  apply Forall_map, Forall_forall. intros click Hin. apply flipAt_play.
  apply list_elem_of_In, in_flat_map in Hin as (j & _ & Hin).
  apply list_elem_of_In in Hin.
  destruct (JS.truthy_at state (cell_of_index j)).
  - by eapply unit_clicks_in_range.
  - by apply elem_of_nil in Hin.
Qed.

Lemma odd_occ_clicks (t : nat -> bool) (k : string) (n : nat) :
  odd_occ k (flat_map pattern_ids
               (flat_map (fun j => if t j then nth j unit_clicks [] else [])
                         (seq 0 n)))
  = xorsum (fun j => odd_occ k (flat_map pattern_ids (nth j unit_clicks [])) && t j) n.
Proof.
  induction n as [|n IH]; [reflexivity|].
  rewrite seq_S, !flat_map_app, odd_occ_app, IH. simpl. f_equal.
  rewrite app_nil_r. destruct (t n); simpl; [by rewrite andb_true_r|].
  by rewrite andb_false_r.
Qed.

Lemma xorsum_delta (t : nat -> bool) (i n : nat) :
  xorsum (fun j => Nat.eqb i j && t j) n = (i <? n)%nat && t i.
Proof.
  induction n as [|n IH]; [reflexivity|]. simpl. rewrite IH.
  destruct (Nat.eqb_spec i n) as [->|Hne].
  - rewrite Nat.ltb_irrefl, (proj2 (Nat.ltb_lt n (S n))) by lia. reflexivity.
  - simpl. rewrite xorb_false_r.
    destruct (Nat.ltb_spec i n), (Nat.ltb_spec i (S n)); try lia; reflexivity.
Qed.

Lemma xorsum_scale (c : bool) (m t : nat -> bool) (n : nat) :
  xorsum (fun j => (m j && c) && t j) n = c && xorsum (fun j => t j && m j) n.
Proof.
  induction n as [|n IH]; simpl; [by destruct c|]. rewrite IH.
  by destruct c, (m n), (t n), (xorsum (fun j => t j && m j) n).
Qed.

(** The clicks of [unit_clicks] do what their description says. *)
Lemma press_spec (i j : nat) :
  (i < 25)%nat → (j < 25)%nat →
  press i j
  = xorb (xorb (Nat.eqb i j) (magic_bit 0 j && Nat.eqb i 2))
         (magic_bit 1 j && Nat.eqb i 1).
Proof.
  intros Hi Hj.
  assert (forallb (fun i =>
            forallb (fun j =>
              Bool.eqb (press i j)
                (xorb (xorb (Nat.eqb i j) (magic_bit 0 j && Nat.eqb i 2))
                      (magic_bit 1 j && Nat.eqb i 1)))
              (seq 0 25)) (seq 0 25) = true) as Hall by (by vm_compute).
  rewrite forallb_forall in Hall.
  specialize (Hall i ltac:(apply in_seq; lia)).
  rewrite forallb_forall in Hall.
  specialize (Hall j ltac:(apply in_seq; lia)).
  by apply Bool.eqb_prop in Hall.
Qed.

Lemma clicks_for_reach (state : State) (i : nat) :
  (i < 25)%nat →
  odd_occ (cell_of_index i) (flat_map pattern_ids (clicks_for state))
  = xorb (xorb (JS.truthy_at state (cell_of_index i))
               (Nat.eqb i 2 && overlap 0 state))
         (Nat.eqb i 1 && overlap 1 state).
Proof.
  intros Hi. unfold clicks_for, overlap.
  rewrite (odd_occ_clicks (fun j => JS.truthy_at state (cell_of_index j))).
  rewrite (xorsum_ext _
             (fun j => xorb (xorb (Nat.eqb i j) (magic_bit 0 j && Nat.eqb i 2))
                            (magic_bit 1 j && Nat.eqb i 1)
                       && JS.truthy_at state (cell_of_index j))).
  - rewrite !xorsum_xorb, xorsum_delta, !xorsum_scale.
    by rewrite (proj2 (Nat.ltb_lt i 25)) by done.
  - intros j Hj. by rewrite <- press_spec.
Qed.

Lemma board_cell_index (cell : Z * Z) :
  on_board 5 5 cell →
  ∃ i, (i < 25)%nat
       ∧ Uniform.getPuzzleCellIdFromCooordinate cell.1 cell.2 = cell_of_index i.
Proof.
  destruct cell as [c r]. intros [Hc Hr]. simpl in *.
  exists (Z.to_nat (r * 5 + c)). split; [lia|].
  split_click Hc Hr; reflexivity.
Qed.

(** X22. The oracle is complete: every state that [isPuzzleSolvable] accepts
    can be reached.  There is a sequence of flips of cells of the board that
    takes the reducer of [part_001] from the initial state [{}] to a state in
    which every cell of the board reads as it does in the accepted state. *)
Theorem solvable_states_are_reachable (state : State) :
  Part000.isPuzzleSolvable state = true →
  ∃ actions final,
    Forall play_action actions
    ∧ runActions Reducer.Part001.puzzleReducer ∅ actions = Some final
    ∧ ∀ cell, on_board 5 5 cell →
        JS.truthy_at final (Part000.getPuzzleCellIdFromCooordinate cell.1 cell.2)
        = JS.truthy_at state (Part000.getPuzzleCellIdFromCooordinate cell.1 cell.2).
Proof.
  intros Hsolv. rewrite isPuzzleSolvable_000 in Hsolv.
  apply andb_true_iff in Hsolv as [H0 H1]. apply negb_true_iff in H0, H1.
  exists (map flipAt (clicks_for state)). eexists.
  split; [apply clicks_for_play|]. split; [apply run_clicks|].
  intros cell Hon. unfold Part000.getPuzzleCellIdFromCooordinate.
  rewrite truthy_toggle_all, unlit_on_empty_board, xorb_false_r by done.
  destruct (board_cell_index cell Hon) as (i & Hi & ->).
  rewrite clicks_for_reach, H0, H1, !andb_false_r, !xorb_false_r by done.
  reflexivity.
Qed.

Lemma solvable_states_are_reachable_witness :
  ∃ actions final,
    Forall play_action actions
    ∧ runActions Reducer.Part001.puzzleReducer ∅ actions = Some final
    ∧ ∀ cell, on_board 5 5 cell →
        JS.truthy_at final (Part000.getPuzzleCellIdFromCooordinate cell.1 cell.2)
        = JS.truthy_at winning_state
            (Part000.getPuzzleCellIdFromCooordinate cell.1 cell.2).
Proof.
  apply (solvable_states_are_reachable winning_state). vm_compute. reflexivity.
Defined.

(** ** Playing on the 4x4 board *)

Lemma play_step_4x4 (state : State) (action : Reducer.Action) :
  play_action4 action → keys_on_board 4 4 state →
  ∃ next, Reducer.App4.puzzleReducer state action = Some (Reducer.VState next)
          ∧ keys_on_board 4 4 next.
Proof.
  intros Hplay Hkeys. destruct action as [type column row].
  destruct Hplay as [Htype|[Htype [Hc Hr]]]; simpl in *; subst type.
  - exists ∅. split; [reflexivity | apply keys_on_board_empty].
  - exists (toggle_all (affected_ids4 column row) state). split.
    + change (Reducer.App4.puzzleReducer state _)
        with (Reducer.VState <$> App4.flipLogic state column row).
      by rewrite flipLogic_app4.
    + intros id [Hold|Hnew]%toggle_all_keys; [by apply Hkeys|].
      rewrite affected_ids4_neighbours, <- affected_ids_uniform4 in Hnew by done.
      by eapply affected_ids_on_board.
Qed.

(** X23. Every state the reducer of the 4x4 revision reaches from [{}]
    through resets and flips of cells of the board has all its keys on the
    board, and no such action makes the reducer throw: on the board the
    region-by-region offsets need no bounds filter. *)
Theorem play_4x4_keeps_keys_on_board (actions : list Reducer.Action) :
  Forall play_action4 actions →
  ∃ final, runActions Reducer.App4.puzzleReducer ∅ actions = Some final
           ∧ keys_on_board 4 4 final.
Proof.
  intros Hall.
  cut (∀ state : State, keys_on_board 4 4 state →
         ∃ final, runActions Reducer.App4.puzzleReducer state actions = Some final
                  ∧ keys_on_board 4 4 final).
  { intros Hrun. apply Hrun, keys_on_board_empty. }
  induction actions as [|action actions IH]; intros state Hkeys.
  - exists state. done.
  - apply Forall_cons in Hall as [Hplay Hall].
    destruct (play_step_4x4 state action Hplay Hkeys) as (next & Hstep & Hkeys').
    destruct (IH Hall next Hkeys') as (final & Hrun & Hfinal).
    exists final. simpl. by rewrite Hstep.
Qed.

Lemma play_4x4_keeps_keys_on_board_witness :
  ∃ final,
    runActions Reducer.App4.puzzleReducer ∅ (flipsAt 4 [0; 5; 15]) = Some final
    ∧ keys_on_board 4 4 final.
Proof.
  apply (play_4x4_keeps_keys_on_board (flipsAt 4 [0; 5; 15])).
  unfold flipsAt. cbn [map].
  repeat (apply Forall_cons_2;
          [right; vm_compute; intuition congruence|]).
  apply Forall_nil_2.
Defined.

(** X24. Both boards can be won from the initial state: ten flips of cells of
    the 4x4 board, and fifteen flips of cells of the 5x5 board, take the
    reducer from [{}] to a state on which the win check succeeds. *)
Theorem both_boards_can_be_won :
  (∃ actions final,
     Forall play_action4 actions
     ∧ runActions Reducer.App4.puzzleReducer ∅ actions = Some final
     ∧ App4View.winCheck final = true)
  ∧ (∃ actions final,
       Forall play_action actions
       ∧ runActions Reducer.Part001.puzzleReducer ∅ actions = Some final
       ∧ Part001.winCheck final = true).
Proof.
  split.
  - exists (flipsAt 4 [0; 1; 2; 3; 4; 7; 8; 9; 10; 11]). eexists.
    split; [|split; [by vm_compute|by vm_compute]].
    unfold flipsAt. cbn [map].
    repeat (apply Forall_cons_2;
            [right; vm_compute; intuition congruence|]).
    apply Forall_nil_2.
  - exists (flipsAt 5 [1; 2; 4; 6; 7; 8; 12; 13; 14; 15; 16; 18; 19; 20; 21]).
    eexists.
    split; [|split; [by vm_compute|by vm_compute]].
    unfold flipsAt. cbn [map].
    repeat (apply Forall_cons_2;
            [right; vm_compute; intuition congruence|]).
    apply Forall_nil_2.
Qed.
